(** * A shallow embedding of the mastercactapus/dhcpv6 Go codec.

    The embedded revision is the most recent one in the sources:
    [src/options.go] (lines 1-1154, the revision with [OptionCode]),
    [src/unnamed/part_001] (DUIDs with [DuidType]) and
    [src/unnamed/part_003] (messages with [DhcpMessageType]).

    Octets and integers are [Z]; slice indices and lengths are [nat].
    A Go [[]byte] is modelled with its backing array, its offset in that
    array and its length, so that its capacity is visible: Go lets
    [s[:h]] extend past [len(s)] up to [cap(s)], and the decoders rely on
    that.  A Go run-time panic (index or slice bounds out of range) is the
    error [Panic]. *)

From Stdlib Require Import ZArith List Lia.
Import ListNotations.
Open Scope Z_scope.
Set Warnings "-register-all".

(** ** Errors and the result monad *)

Inductive error :=
| ErrUnexpectedEOF
| ErrInvalidType
| ErrInvalidData
| ErrInvalidIpv6Address
| ErrWontFit
| ErrDuidTooLong
| Panic      (* Go run-time panic: index or slice bounds out of range *)
| OutOfFuel. (* recursion bound of the embedding exhausted, see [fuel_of] *)

Inductive result (A : Type) :=
| Ok (a : A)
| Err (e : error).
Arguments Ok {A} a.
Arguments Err {A} e.

Definition bind {A B} (m : result A) (k : A -> result B) : result B :=
  match m with Ok a => k a | Err e => Err e end.

Notation "'let*' x := m 'in' k" := (bind m (fun x => k))
  (at level 200, x name, m at level 100, k at level 200).

Definition guard (b : bool) (e : error) : result unit :=
  if b then Err e else Ok tt.

Notation "'check' b 'or' e ;; k" := (bind (guard b e) (fun _ => k))
  (at level 200, b at level 100, e at level 100, k at level 200).

(** ** Go slices *)

Module GoSlice.

Record slice := mk { backing : list Z; off : nat; len : nat }.

Definition cap (s : slice) : nat := (length (backing s) - off s)%nat.

(** The octets a slice shows, [s[0:len(s)]]. *)
Definition bytes (s : slice) : list Z :=
  firstn (len s) (skipn (off s) (backing s)).

(** A freshly allocated buffer: capacity equals length. *)
Definition of_list (l : list Z) : slice := mk l 0 (length l).

(** [s[i]] *)
Definition at_ (s : slice) (i : nat) : result Z :=
  if (i <? len s)%nat then Ok (nth (off s + i)%nat (backing s) 0) else Err Panic.

(** [s[lo:hi]], legal when [lo <= hi <= cap(s)]. *)
Definition sub (s : slice) (lo hi : nat) : result slice :=
  if andb (lo <=? hi)%nat (hi <=? cap s)%nat
  then Ok (mk (backing s) (off s + lo)%nat (hi - lo)%nat)
  else Err Panic.

(** [s[lo:]], legal when [lo <= len(s)]. *)
Definition from (s : slice) (lo : nat) : result slice := sub s lo (len s).

(** [s[:hi]], legal when [hi <= cap(s)]. *)
Definition upto (s : slice) (hi : nat) : result slice := sub s 0 hi.

(** [binary.BigEndian.Uint16(s)]: panics when [len(s) < 2]. *)
Definition be_u16 (s : slice) : result Z :=
  let* b1 := at_ s 1 in
  let* b0 := at_ s 0 in
  Ok (b0 * 256 + b1).

(** [binary.BigEndian.Uint32(s)]: panics when [len(s) < 4]. *)
Definition be_u32 (s : slice) : result Z :=
  let* b3 := at_ s 3 in
  let* b0 := at_ s 0 in
  let* b1 := at_ s 1 in
  let* b2 := at_ s 2 in
  Ok (((b0 * 256 + b1) * 256 + b2) * 256 + b3).

(** [binary.BigEndian.Uint16(s[i:])] and [binary.BigEndian.Uint32(s[i:])] *)
Definition u16_at (s : slice) (i : nat) : result Z :=
  let* t := from s i in be_u16 t.
Definition u32_at (s : slice) (i : nat) : result Z :=
  let* t := from s i in be_u32 t.

(** [s[lo:hi]] read out as octets. *)
Definition bytes_sub (s : slice) (lo hi : nat) : result (list Z) :=
  let* t := sub s lo hi in Ok (bytes t).

End GoSlice.

Import GoSlice.

(** ** Fixed-width helpers *)

(** Go [uint16] arithmetic wraps around modulo 2^16. *)
Definition u16 (x : Z) : Z := x mod 65536.

(** [binary.BigEndian.PutUint16] / [PutUint32] of the value [x] converted
    to the unsigned type. *)
Definition put_u16 (x : Z) : list Z :=
  [(x / 256) mod 256; x mod 256].
Definition put_u32 (x : Z) : list Z :=
  [(x / 16777216) mod 256; (x / 65536) mod 256; (x / 256) mod 256; x mod 256].

(** [copy(dst, src)] on a fixed array [dst]: copies [min(len dst, len src)]
    octets and leaves the rest of [dst]. *)
Definition go_copy (dst src : list Z) : list Z :=
  firstn (length dst) src ++ skipn (length src) dst.

Definition zlen {A} (l : list A) : Z := Z.of_nat (length l).

(** [uint16(x)] used as a slice index. *)
Definition u16n (x : Z) : nat := Z.to_nat (u16 x).

(** ** DUIDs ([src/unnamed/part_001]) *)

Module Duid.

Definition DuidTypeLlt : Z := 1.
Definition DuidTypeEn : Z := 2.
Definition DuidTypeLl : Z := 3.

Inductive duid :=
| LltDuid (HardwareType Time : Z) (LlAddress : list Z)
| EnDuid (EnterpriseNumber : Z) (Identifier : list Z)
| LlDuid (HardwareType : Z) (LlAddress : list Z).

(** [LltDuid.MarshalBinary], [EnDuid.MarshalBinary], [LlDuid.MarshalBinary] *)
Definition MarshalBinary (d : duid) : result (list Z) :=
  match d with
  | LltDuid hw t ll =>
      check (122 <? zlen ll) or ErrDuidTooLong;;
      Ok (put_u16 DuidTypeLlt ++ put_u16 hw ++ put_u32 t ++ ll)
  | EnDuid en ident =>
      check (124 <? zlen ident) or ErrDuidTooLong;;
      Ok (put_u16 DuidTypeEn ++ put_u32 en ++ ident)
  | LlDuid hw ll =>
      check (126 <? zlen ll) or ErrDuidTooLong;;
      Ok (put_u16 DuidTypeLl ++ put_u16 hw ++ ll)
  end.

(** [LltDuid.UnmarshalBinary] *)
Definition LltDuid_UnmarshalBinary (data : slice) : result duid :=
  check (len data <? 8)%nat or ErrUnexpectedEOF;;
  check (130 <? len data)%nat or ErrDuidTooLong;;
  let* ty := be_u16 data in
  check (negb (ty =? DuidTypeLlt)) or ErrInvalidType;;
  let* hw := u16_at data 2 in
  let* t := u32_at data 4 in
  let* ll := from data 8 in
  Ok (LltDuid hw t (bytes ll)).

(** [EnDuid.UnmarshalBinary] *)
Definition EnDuid_UnmarshalBinary (data : slice) : result duid :=
  check (len data <? 6)%nat or ErrUnexpectedEOF;;
  check (130 <? len data)%nat or ErrDuidTooLong;;
  let* ty := be_u16 data in
  check (negb (ty =? DuidTypeEn)) or ErrInvalidType;;
  let* en := u32_at data 2 in
  let* ident := from data 6 in
  Ok (EnDuid en (bytes ident)).

(** [LlDuid.UnmarshalBinary] *)
Definition LlDuid_UnmarshalBinary (data : slice) : result duid :=
  check (len data <? 4)%nat or ErrUnexpectedEOF;;
  check (130 <? len data)%nat or ErrDuidTooLong;;
  let* ty := be_u16 data in
  check (negb (ty =? DuidTypeLl)) or ErrInvalidType;;
  let* hw := u16_at data 2 in
  let* ll := from data 4 in
  Ok (LlDuid hw (bytes ll)).

(** [UnmarshalBinaryDuid]: the tag is read before any length check. *)
Definition UnmarshalBinaryDuid (data : slice) : result duid :=
  let* dtype := be_u16 data in
  if dtype =? DuidTypeLlt then LltDuid_UnmarshalBinary data
  else if dtype =? DuidTypeEn then EnDuid_UnmarshalBinary data
  else if dtype =? DuidTypeLl then LlDuid_UnmarshalBinary data
  else Err ErrInvalidType.

(** The public operations of the spec, on a freshly allocated buffer. *)
Definition encode_duid := MarshalBinary.
Definition decode_duid (b : list Z) : result duid := UnmarshalBinaryDuid (of_list b).

End Duid.

Import Duid.

(** ** Options ([src/options.go], lines 1-1154) *)

Inductive option :=
| UnknownOption (OptionCode : Z) (OptionData : list Z)
| ClientIdOption (Duid : duid)
| ServerIdOption (Duid : duid)
| IaNaOption (IAID : list Z) (T1 T2 : Z) (IaNaOptions : list option)
| IaTaOption (IAID : list Z) (IaTaOptions : list option)
| IaAddrOption (Ipv6Address : list Z) (PreferredLifetime ValidLifetime : Z)
    (IAddrOptions : list option)
| OroOption (RequestedOptionCodes : list Z)
| PreferenceOption (PreferenceValue : Z)
| ElapsedTimeOption (ElapsedTime : Z)
| RelayMsgOption (Relay : relay_message)
| AuthOption (Protocol Algorithm RDM : Z) (ReplayDetection : list Z)
    (AuthenticationInformation : list Z)
| UnicastOption (ServerAddress : list Z)
| StatusCodeOption (StatusCode : Z) (StatusMessage : list Z)
| RapidCommitOption
| UserClassOption (UserClassData : list (list Z))
| VendorClassOption (VendorClassData : list (list Z))
| VendorOptsOption (EnterpriseNumber : Z) (OptionData : list (Z * list Z))
| InterfaceIdOption (InterfaceId : list Z)
| ReconfMsgOption (MsgType : Z)
| ReconfAcceptOption
| NextHopOption (NextHop : list Z) (NextHopOptions : list option)
| RtPrefixOption (Lifetime Prefixlen Metric : Z) (Prefix : list Z)
| FQDNOption (Flags : Z) (DomainName : list Z)
| MTUOption (MTU : Z)
(** [DhcpRelayMessage] of [src/unnamed/part_003] *)
with relay_message :=
| DhcpRelayMessage (MsgType HopCount : Z) (LinkAddress PeerAddress : list Z)
    (Options : list option).

Definition OptionCodeClientId : Z := 1.
Definition OptionCodeServerId : Z := 2.
Definition OptionCodeIaNa : Z := 3.
Definition OptionCodeIaTa : Z := 4.
Definition OptionCodeIaAddr : Z := 5.
Definition OptionCodeOro : Z := 6.
Definition OptionCodePreference : Z := 7.
Definition OptionCodeElapsedTime : Z := 8.
Definition OptionCodeRelayMsg : Z := 9.
Definition OptionCodeAuth : Z := 11.
Definition OptionCodeUnicast : Z := 12.
Definition OptionCodeStatusCode : Z := 13.
Definition OptionCodeRapidCommit : Z := 14.
Definition OptionCodeUserClass : Z := 15.
Definition OptionCodeVendorClass : Z := 16.
Definition OptionCodeVendorOpts : Z := 17.
Definition OptionCodeInterfaceId : Z := 18.
Definition OptionCodeReconfMsg : Z := 19.
Definition OptionCodeReconfAccept : Z := 20.
Definition OptionCodeFQDN : Z := 39.
Definition OptionCodeNextHop : Z := 242.
Definition OptionCodeRtPrefix : Z := 243.
Definition OptionCodeMTU : Z := 244.

(** *** Encoding *)

(** The length field of a container is written last:
    [binary.BigEndian.PutUint16(data[2:], uint16(len(data)-4))]. *)
Definition set_len (data : list Z) : list Z :=
  firstn 2 data ++ put_u16 (u16 (zlen data - 4)) ++ skipn 4 data.

(** The loop of the container encoders: each nested option is marshalled
    in order, and [len(data)+len(optionData) > cap(data)] is [ErrWontFit]. *)
Fixpoint append_nested (capacity : Z) (data : list Z)
    (encoded : list (result (list Z))) : result (list Z) :=
  match encoded with
  | [] => Ok data
  | r :: rest =>
      let* optionData := r in
      check (capacity <? zlen data + zlen optionData) or ErrWontFit;;
      append_nested capacity (data ++ optionData) rest
  end.

(** The loop of [DhcpMessage.MarshalBinary] / [DhcpRelayMessage.MarshalBinary]:
    plain [append], no capacity check. *)
Fixpoint append_all (data : list Z) (encoded : list (result (list Z)))
    : result (list Z) :=
  match encoded with
  | [] => Ok data
  | r :: rest => let* optionData := r in append_all (data ++ optionData) rest
  end.

(** [make([]byte, n)] for a container without nested options, and
    [make([]byte, n, c)] otherwise. *)
Definition container_cap {A} (nested : list A) (n c : Z) : Z :=
  match nested with [] => n | _ => c end.

Definition sum_sizes {A} (f : A -> Z) (l : list A) : Z :=
  fold_left (fun acc x => acc + f x) l 0.

(** [MarshalBinary] of every option type, and of [DhcpRelayMessage]. *)
Fixpoint MarshalBinary (o : option) : result (list Z) :=
  match o with
  | UnknownOption c d =>
      check (65535 <? zlen d) or ErrWontFit;;
      Ok (put_u16 c ++ put_u16 (zlen d) ++ d)
  | ClientIdOption du =>
      let* duidData := Duid.MarshalBinary du in
      Ok (put_u16 OptionCodeClientId ++ put_u16 (u16 (zlen duidData)) ++ duidData)
  | ServerIdOption du =>
      let* duidData := Duid.MarshalBinary du in
      Ok (put_u16 OptionCodeServerId ++ put_u16 (u16 (zlen duidData)) ++ duidData)
  | IaNaOption iaid t1 t2 opts =>
      let data := put_u16 OptionCodeIaNa ++ [0; 0] ++ iaid ++ put_u32 t1 ++ put_u32 t2 in
      let* data := append_nested (container_cap opts 16 65539) data
                     (map MarshalBinary opts) in
      Ok (set_len data)
  | IaTaOption iaid opts =>
      let data := put_u16 OptionCodeIaTa ++ [0; 0] ++ iaid in
      let* data := append_nested (container_cap opts 8 65539) data
                     (map MarshalBinary opts) in
      Ok (set_len data)
  | IaAddrOption addr pl vl opts =>
      check negb (length addr =? 16)%nat or ErrInvalidIpv6Address;;
      let data := put_u16 OptionCodeIaAddr ++ [0; 0] ++ addr ++ put_u32 pl ++ put_u32 vl in
      (* the source allocates a capacity of 63359, commented "65535+4" *)
      let* data := append_nested (container_cap opts 28 63359) data
                     (map MarshalBinary opts) in
      Ok (set_len data)
  | OroOption codes =>
      check (32767 <? zlen codes) or ErrWontFit;;
      Ok (put_u16 OptionCodeOro ++ put_u16 (u16 (2 * zlen codes))
            ++ concat (map put_u16 codes))
  | PreferenceOption v =>
      Ok (put_u16 OptionCodePreference ++ put_u16 1 ++ [v])
  | ElapsedTimeOption t =>
      Ok (put_u16 OptionCodeElapsedTime ++ put_u16 2 ++ put_u16 t)
  | RelayMsgOption r =>
      let* relayData := Relay_MarshalBinary r in
      check (65535 <? zlen relayData) or ErrWontFit;;
      Ok (put_u16 OptionCodeRelayMsg ++ put_u16 (zlen relayData) ++ relayData)
  | AuthOption p a rdm rd info =>
      check (65524 <? zlen info) or ErrWontFit;;
      Ok (put_u16 OptionCodeAuth ++ put_u16 (u16 (11 + zlen info))
            ++ [p; a; rdm] ++ rd ++ info)
  | UnicastOption addr =>
      check negb (length addr =? 16)%nat or ErrInvalidIpv6Address;;
      Ok (put_u16 OptionCodeUnicast ++ put_u16 16 ++ addr)
  | StatusCodeOption c msg =>
      check (65534 <? zlen msg) or ErrWontFit;;
      Ok (put_u16 OptionCodeStatusCode ++ put_u16 (u16 (zlen msg + 1)) ++ [c] ++ msg)
  | RapidCommitOption =>
      Ok (put_u16 OptionCodeRapidCommit ++ put_u16 0)
  | UserClassOption entries =>
      let size := sum_sizes (fun e => 2 + zlen e) entries in
      check (65539 <? size) or ErrWontFit;;
      Ok (put_u16 OptionCodeUserClass ++ put_u16 (u16 size)
            ++ concat (map (fun e => put_u16 (u16 (zlen e)) ++ e) entries))
  | VendorClassOption entries =>
      let size := sum_sizes (fun e => 2 + zlen e) entries in
      check (65535 <? size) or ErrWontFit;;
      Ok (put_u16 OptionCodeVendorClass ++ put_u16 (u16 size)
            ++ concat (map (fun e => put_u16 (u16 (zlen e)) ++ e) entries))
  | VendorOptsOption en od =>
      let size := 4 + sum_sizes (fun v => 4 + zlen (snd v)) od in
      check (65535 <? size) or ErrWontFit;;
      Ok (put_u16 OptionCodeVendorOpts ++ put_u16 (u16 size) ++ put_u32 en
            ++ concat (map (fun v => put_u16 (fst v) ++ put_u16 (u16 (zlen (snd v)))
                                       ++ snd v) od))
  | InterfaceIdOption ident =>
      check (65535 <? zlen ident) or ErrWontFit;;
      Ok (put_u16 OptionCodeInterfaceId ++ put_u16 (zlen ident) ++ ident)
  | ReconfMsgOption t =>
      Ok (put_u16 OptionCodeReconfMsg ++ put_u16 1 ++ [t])
  | ReconfAcceptOption =>
      Ok (put_u16 OptionCodeReconfAccept ++ put_u16 0)
  | NextHopOption addr opts =>
      check negb (length addr =? 16)%nat or ErrInvalidIpv6Address;;
      let data := put_u16 OptionCodeNextHop ++ [0; 0] ++ addr in
      let* data := append_nested (container_cap opts 20 65539) data
                     (map MarshalBinary opts) in
      Ok (set_len data)
  | RtPrefixOption lt pl m prefix =>
      check negb (length prefix =? 16)%nat or ErrInvalidIpv6Address;;
      check (128 <? pl) or ErrInvalidIpv6Address;;
      Ok (put_u16 OptionCodeRtPrefix ++ put_u16 22 ++ put_u32 lt ++ [pl; m] ++ prefix)
  | FQDNOption flags dn =>
      Ok (put_u16 OptionCodeFQDN ++ put_u16 (u16 (1 + zlen dn)) ++ [flags] ++ dn)
  | MTUOption mtu =>
      Ok (put_u16 OptionCodeMTU ++ put_u16 2 ++ put_u16 mtu)
  end
with Relay_MarshalBinary (r : relay_message) : result (list Z) :=
  match r with
  | DhcpRelayMessage mt hc link peer opts =>
      check negb (length link =? 16)%nat or ErrInvalidIpv6Address;;
      check negb (length peer =? 16)%nat or ErrInvalidIpv6Address;;
      append_all ([mt; hc] ++ link ++ peer) (map MarshalBinary opts)
  end.

Definition encode_option := MarshalBinary.

(** *** Decoding *)

(** The prologue shared by the variable-length decoders:
    [if len(data) < min { return ErrUnexpectedEOF }], the code check,
    [olen := binary.BigEndian.Uint16(data[2:])] and
    [if len(data) < int(olen)+4 { return ErrUnexpectedEOF }]. *)
Definition read_header (min : nat) (code : Z) (data : slice) : result Z :=
  check (len data <? min)%nat or ErrUnexpectedEOF;;
  let* c := be_u16 data in
  check negb (c =? code) or ErrInvalidType;;
  let* olen := u16_at data 2 in
  check (Z.of_nat (len data) <? olen + 4) or ErrUnexpectedEOF;;
  Ok olen.

(** The prologue of the fixed-length decoders: the length field is compared
    with its constant, [ErrInvalidData] on mismatch. *)
Definition read_fixed (min : nat) (code expected : Z) (data : slice) : result unit :=
  check (len data <? min)%nat or ErrUnexpectedEOF;;
  let* c := be_u16 data in
  check negb (c =? code) or ErrInvalidType;;
  let* l := u16_at data 2 in
  check negb (l =? expected) or ErrInvalidData;;
  Ok tt.

(** The nested loop of [IaNa], [IaTa], [IaAddr] and [NextHop]:
<<
    for len(optionData) != 0 {
        if len(optionData) < 4 { return ErrUnexpectedEOF }
        nextSize := binary.BigEndian.Uint16(optionData[2:])
        option, err := UnmarshalBinaryOption(optionData[:nextSize+4])
        if err != nil { return err }
        opts = append(opts, option)
        optionData = optionData[nextSize+4:]
    }
>>
    [nextSize+4] is [uint16] arithmetic; [optionData[:nextSize+4]] may reach
    past [len(optionData)] up to [cap(optionData)]. *)
Fixpoint decode_nested (dec : slice -> result option) (k : nat)
    (optionData : slice) (acc : list option) : result (list option) :=
  match k with
  | O => Err OutOfFuel
  | S k' =>
      if (len optionData =? 0)%nat then Ok acc else
      check (len optionData <? 4)%nat or ErrUnexpectedEOF;;
      let* nextSize := u16_at optionData 2 in
      let* window := upto optionData (u16n (nextSize + 4)) in
      let* o := dec window in
      let* rest := from optionData (u16n (nextSize + 4)) in
      decode_nested dec k' rest (acc ++ [o])
  end.

(** The option loop of [DhcpMessage.UnmarshalBinary] and
    [DhcpRelayMessage.UnmarshalBinary]: the whole remaining buffer is handed
    to [UnmarshalBinaryOption], then [data = data[optSize+4:]]. *)
Fixpoint decode_flat (dec : slice -> result option) (k : nat)
    (data : slice) (acc : list option) : result (list option) :=
  match k with
  | O => Err OutOfFuel
  | S k' =>
      if (len data =? 0)%nat then Ok acc else
      check (len data <? 4)%nat or ErrUnexpectedEOF;;
      let* optSize := u16_at data 2 in
      let* o := dec data in
      let* rest := from data (u16n (optSize + 4)) in
      decode_flat dec k' rest (acc ++ [o])
  end.

(** The entry loop of [UserClassOption.UnmarshalBinary] and
    [VendorClassOption.UnmarshalBinary]:
<<
    data = data[4:]
    for len(data) > 0 {
        size := binary.BigEndian.Uint16(data)
        entries = append(entries, data[2:size+2])
        data = data[size+2:]
    }
>> *)
Fixpoint decode_class_entries (k : nat) (data : slice) (acc : list (list Z))
    : result (list (list Z)) :=
  match k with
  | O => Err OutOfFuel
  | S k' =>
      if (len data =? 0)%nat then Ok acc else
      let* size := be_u16 data in
      let* e := bytes_sub data 2 (u16n (size + 2)) in
      let* rest := from data (u16n (size + 2)) in
      decode_class_entries k' rest (acc ++ [e])
  end.

(** The entry loop of [VendorOptsOption.UnmarshalBinary]. *)
Fixpoint decode_vendor_opts (k : nat) (data : slice) (acc : list (Z * list Z))
    : result (list (Z * list Z)) :=
  match k with
  | O => Err OutOfFuel
  | S k' =>
      if (len data =? 0)%nat then Ok acc else
      check (len data <? 4)%nat or ErrUnexpectedEOF;;
      let* c := be_u16 data in
      let* optLen := u16_at data 2 in
      check (Z.of_nat (len data) <? optLen + 4) or ErrUnexpectedEOF;;
      let* d := bytes_sub data 4 (u16n (optLen + 4)) in
      let* rest := from data (u16n (optLen + 4)) in
      decode_vendor_opts k' rest (acc ++ [(c, d)])
  end.

(** [o.RequestedOptionCodes[i] = binary.BigEndian.Uint16(data[4+i*2:])]
    for [i] in [0, n). *)
Fixpoint read_codes (data : slice) (idx : list nat) : result (list Z) :=
  match idx with
  | [] => Ok []
  | i :: rest =>
      let* c := u16_at data (4 + i * 2)%nat in
      let* cs := read_codes data rest in
      Ok (c :: cs)
  end.

Module Unmarshal.

Definition UnknownOption_ (data : slice) : result option :=
  check (len data <? 4)%nat or ErrUnexpectedEOF;;
  let* c := be_u16 data in
  let* olen := u16_at data 2 in
  check (Z.of_nat (len data) <? olen + 4) or ErrUnexpectedEOF;;
  let* d := bytes_sub data 4 (u16n (olen + 4)) in
  Ok (UnknownOption c d).

Definition ClientIdOption_ (data : slice) : result option :=
  let* olen := read_header 4 OptionCodeClientId data in
  let* w := sub data 4 (u16n (olen + 4)) in
  let* du := UnmarshalBinaryDuid w in
  Ok (ClientIdOption du).

Definition ServerIdOption_ (data : slice) : result option :=
  let* olen := read_header 4 OptionCodeServerId data in
  let* w := sub data 4 (u16n (olen + 4)) in
  let* du := UnmarshalBinaryDuid w in
  Ok (ServerIdOption du).

Definition IaNaOption_ (dec : slice -> result option) (data : slice) : result option :=
  let* olen := read_header 16 OptionCodeIaNa data in
  let* iaid := bytes_sub data 4 8 in
  let* t1 := u32_at data 8 in
  let* t2 := u32_at data 12 in
  let* optionData := sub data 16 (u16n (olen + 4)) in
  let* opts := decode_nested dec (S (len optionData)) optionData [] in
  Ok (IaNaOption (go_copy [0; 0; 0; 0] iaid) t1 t2 opts).

Definition IaTaOption_ (dec : slice -> result option) (data : slice) : result option :=
  let* olen := read_header 8 OptionCodeIaTa data in
  let* iaid := bytes_sub data 4 8 in
  let* optionData := sub data 8 (u16n (olen + 4)) in
  let* opts := decode_nested dec (S (len optionData)) optionData [] in
  Ok (IaTaOption (go_copy [0; 0; 0; 0] iaid) opts).

Definition IaAddrOption_ (dec : slice -> result option) (data : slice) : result option :=
  let* olen := read_header 28 OptionCodeIaAddr data in
  let* addr := bytes_sub data 4 20 in
  let* pl := u32_at data 20 in
  let* vl := u32_at data 24 in
  let* optionData := sub data 28 (u16n (olen + 4)) in
  let* opts := decode_nested dec (S (len optionData)) optionData [] in
  Ok (IaAddrOption addr pl vl opts).

Definition OroOption_ (data : slice) : result option :=
  let* olen := read_header 4 OptionCodeOro data in
  let* codes := read_codes data (seq 0 (Z.to_nat (olen / 2))) in
  Ok (OroOption codes).

Definition PreferenceOption_ (data : slice) : result option :=
  let* _ := read_fixed 5 OptionCodePreference 1 data in
  let* v := at_ data 4 in
  Ok (PreferenceOption v).

Definition ElapsedTimeOption_ (data : slice) : result option :=
  let* _ := read_fixed 6 OptionCodeElapsedTime 2 data in
  let* t := u16_at data 4 in
  Ok (ElapsedTimeOption t).

(** [DhcpRelayMessage.UnmarshalBinary] *)
Definition DhcpRelayMessage_ (dec : slice -> result option) (data : slice)
    : result relay_message :=
  check (len data <? 34)%nat or ErrUnexpectedEOF;;
  let* mt := at_ data 0 in
  let* hc := at_ data 1 in
  let* link := bytes_sub data 2 18 in
  let* peer := bytes_sub data 18 34 in
  let* rest := from data 34 in
  let* opts := decode_flat dec (S (len rest)) rest [] in
  Ok (DhcpRelayMessage mt hc link peer opts).

Definition RelayMsgOption_ (dec : slice -> result option) (data : slice) : result option :=
  let* olen := read_header 4 OptionCodeRelayMsg data in
  let* w := sub data 4 (u16n (olen + 4)) in
  let* r := DhcpRelayMessage_ dec w in
  Ok (RelayMsgOption r).

Definition AuthOption_ (data : slice) : result option :=
  let* olen := read_header 15 OptionCodeAuth data in
  let* p := at_ data 4 in
  let* a := at_ data 5 in
  let* rdm := at_ data 6 in
  let* rd := bytes_sub data 7 15 in
  let* info := bytes_sub data 15 (u16n (olen + 4)) in
  Ok (AuthOption p a rdm (go_copy (repeat 0 8) rd) info).

Definition UnicastOption_ (data : slice) : result option :=
  let* _ := read_fixed 20 OptionCodeUnicast 16 data in
  let* addr := bytes_sub data 4 20 in
  Ok (UnicastOption addr).

Definition StatusCodeOption_ (data : slice) : result option :=
  let* olen := read_header 5 OptionCodeStatusCode data in
  let* c := at_ data 4 in
  let* msg := bytes_sub data 5 (u16n (olen + 4)) in
  Ok (StatusCodeOption c msg).

Definition RapidCommitOption_ (data : slice) : result option :=
  let* _ := read_fixed 4 OptionCodeRapidCommit 0 data in
  Ok RapidCommitOption.

(** The entry loop runs over [data[4:]], the whole buffer after the header,
    not over [data[4:olen+4]]. *)
Definition UserClassOption_ (data : slice) : result option :=
  let* _ := read_header 4 OptionCodeUserClass data in
  let* rest := from data 4 in
  let* entries := decode_class_entries (S (len rest)) rest [] in
  Ok (UserClassOption entries).

Definition VendorClassOption_ (data : slice) : result option :=
  let* _ := read_header 4 OptionCodeVendorClass data in
  let* rest := from data 4 in
  let* entries := decode_class_entries (S (len rest)) rest [] in
  Ok (VendorClassOption entries).

Definition VendorOptsOption_ (data : slice) : result option :=
  let* _ := read_header 8 OptionCodeVendorOpts data in
  let* en := u32_at data 4 in
  let* rest := from data 8 in
  let* od := decode_vendor_opts (S (len rest)) rest [] in
  Ok (VendorOptsOption en od).

Definition InterfaceIdOption_ (data : slice) : result option :=
  let* olen := read_header 4 OptionCodeInterfaceId data in
  let* ident := bytes_sub data 4 (u16n (olen + 4)) in
  Ok (InterfaceIdOption ident).

Definition ReconfMsgOption_ (data : slice) : result option :=
  let* _ := read_fixed 5 OptionCodeReconfMsg 1 data in
  let* t := at_ data 4 in
  Ok (ReconfMsgOption t).

Definition ReconfAcceptOption_ (data : slice) : result option :=
  let* _ := read_fixed 4 OptionCodeReconfAccept 0 data in
  Ok ReconfAcceptOption.

Definition NextHopOption_ (dec : slice -> result option) (data : slice) : result option :=
  let* olen := read_header 20 OptionCodeNextHop data in
  let* addr := bytes_sub data 4 20 in
  let* optionData := sub data 20 (u16n (olen + 4)) in
  let* opts := decode_nested dec (S (len optionData)) optionData [] in
  Ok (NextHopOption addr opts).

(** [o.Prefix = net.IP(data[10:])]: the prefix runs to the end of [data]. *)
Definition RtPrefixOption_ (data : slice) : result option :=
  let* _ := read_header 26 OptionCodeRtPrefix data in
  let* pl := at_ data 8 in
  check (128 <? pl) or ErrInvalidIpv6Address;;
  let* lt := u32_at data 4 in
  let* m := at_ data 9 in
  let* prefix := from data 10 in
  Ok (RtPrefixOption lt pl m (bytes prefix)).

(** [o.Flags = data[4]] is commented out in the source: [Flags] keeps its
    zero value and the domain name starts at offset 4. *)
Definition FQDNOption_ (data : slice) : result option :=
  let* olen := read_header 5 OptionCodeFQDN data in
  let* dn := bytes_sub data 4 (u16n (olen + 4)) in
  Ok (FQDNOption 0 dn).

(** The length field is read but never compared with 2. *)
Definition MTUOption_ (data : slice) : result option :=
  let* _ := read_header 6 OptionCodeMTU data in
  let* mtu := u16_at data 4 in
  Ok (MTUOption mtu).

End Unmarshal.

(** [UnmarshalBinaryOption]: the code is read with
    [binary.BigEndian.Uint16(data)] before any length check, then the
    decoder of that code runs on the same [data].

    [fuel] bounds the nesting depth of the embedding.  Every nested call
    runs on a window that starts at least 4 octets further in the same
    backing array, so the depth is below the buffer's capacity and
    [fuel_of] below never runs out. *)
Fixpoint UnmarshalBinaryOption (fuel : nat) (data : slice) : result option :=
  match fuel with
  | O => Err OutOfFuel
  | S fuel' =>
      let dec := UnmarshalBinaryOption fuel' in
      let* c := be_u16 data in
      if c =? OptionCodeClientId then Unmarshal.ClientIdOption_ data
      else if c =? OptionCodeServerId then Unmarshal.ServerIdOption_ data
      else if c =? OptionCodeIaNa then Unmarshal.IaNaOption_ dec data
      else if c =? OptionCodeIaTa then Unmarshal.IaTaOption_ dec data
      else if c =? OptionCodeIaAddr then Unmarshal.IaAddrOption_ dec data
      else if c =? OptionCodeOro then Unmarshal.OroOption_ data
      else if c =? OptionCodePreference then Unmarshal.PreferenceOption_ data
      else if c =? OptionCodeElapsedTime then Unmarshal.ElapsedTimeOption_ data
      else if c =? OptionCodeRelayMsg then Unmarshal.RelayMsgOption_ dec data
      else if c =? OptionCodeAuth then Unmarshal.AuthOption_ data
      else if c =? OptionCodeUnicast then Unmarshal.UnicastOption_ data
      else if c =? OptionCodeStatusCode then Unmarshal.StatusCodeOption_ data
      else if c =? OptionCodeRapidCommit then Unmarshal.RapidCommitOption_ data
      else if c =? OptionCodeUserClass then Unmarshal.UserClassOption_ data
      else if c =? OptionCodeVendorClass then Unmarshal.VendorClassOption_ data
      else if c =? OptionCodeVendorOpts then Unmarshal.VendorOptsOption_ data
      else if c =? OptionCodeInterfaceId then Unmarshal.InterfaceIdOption_ data
      else if c =? OptionCodeReconfMsg then Unmarshal.ReconfMsgOption_ data
      else if c =? OptionCodeReconfAccept then Unmarshal.ReconfAcceptOption_ data
      else if c =? OptionCodeFQDN then Unmarshal.FQDNOption_ data
      else if c =? OptionCodeNextHop then Unmarshal.NextHopOption_ dec data
      else if c =? OptionCodeRtPrefix then Unmarshal.RtPrefixOption_ data
      else if c =? OptionCodeMTU then Unmarshal.MTUOption_ data
      else Unmarshal.UnknownOption_ data
  end.

Definition fuel_of (s : slice) : nat := S (cap s).

(** [decode_option] of the spec: [UnmarshalBinaryOption] on a freshly
    allocated buffer holding exactly [b]. *)
Definition decode_option (b : list Z) : result option :=
  UnmarshalBinaryOption (fuel_of (of_list b)) (of_list b).

(** ** Messages ([src/unnamed/part_003]) *)

Record DhcpMessage := mkDhcpMessage {
  MsgType : Z;
  TransactionId : list Z;  (* [3]byte *)
  Options : list option
}.

(** [DhcpMessage.MarshalBinary] *)
Definition DhcpMessage_MarshalBinary (d : DhcpMessage) : result (list Z) :=
  append_all ([MsgType d] ++ TransactionId d) (map MarshalBinary (Options d)).

(** [DhcpMessage.UnmarshalBinary] *)
Definition DhcpMessage_UnmarshalBinary (fuel : nat) (data : slice)
    : result DhcpMessage :=
  check (len data <? 4)%nat or ErrUnexpectedEOF;;
  let* mt := at_ data 0 in
  let* xid := bytes_sub data 1 4 in
  let* rest := from data 4 in
  let* opts := decode_flat (UnmarshalBinaryOption fuel) (S (len rest)) rest [] in
  Ok (mkDhcpMessage mt (go_copy [0; 0; 0] xid) opts).

Definition encode_message := DhcpMessage_MarshalBinary.
Definition decode_message (b : list Z) : result DhcpMessage :=
  DhcpMessage_UnmarshalBinary (fuel_of (of_list b)) (of_list b).

(** Decoding an encoded message or option, [Err] when encoding fails. *)
Definition message_roundtrip (m : DhcpMessage) : result DhcpMessage :=
  let* b := encode_message m in decode_message b.
Definition option_roundtrip (o : option) : result option :=
  let* b := encode_option o in decode_option b.

(** The Solicit of [ExampleDhcpMessage_MarshalBinary]
    ([src/unnamed/part_002]). *)
Definition solicit_example : DhcpMessage :=
  mkDhcpMessage 1 [0xa0; 0xa7; 0xa2]
    [ RapidCommitOption;
      IaNaOption [0xaf; 0xaa; 0xac; 0xa3] 0 0 [];
      OroOption [23; 24; 56];
      ClientIdOption (EnDuid 43793 [0xac; 0xa2; 0xa8; 0xaf; 0xae; 0xa3; 0xa3; 0xaf]);
      ElapsedTimeOption 0 ].

(** Its expected encoding, the hex string of the example split into octets:
    01a0a7a2 000e0000 0003000cafaaaca30000000000000000 0006000600170018 0038
    0001000e00020000ab11aca2a8afaea3a3af 000800020000. *)
Definition solicit_example_bytes : list Z :=
  [0x01; 0xa0; 0xa7; 0xa2;
   0x00; 0x0e; 0x00; 0x00;
   0x00; 0x03; 0x00; 0x0c; 0xaf; 0xaa; 0xac; 0xa3;
   0x00; 0x00; 0x00; 0x00; 0x00; 0x00; 0x00; 0x00;
   0x00; 0x06; 0x00; 0x06; 0x00; 0x17; 0x00; 0x18; 0x00; 0x38;
   0x00; 0x01; 0x00; 0x0e; 0x00; 0x02; 0x00; 0x00; 0xab; 0x11;
   0xac; 0xa2; 0xa8; 0xaf; 0xae; 0xa3; 0xa3; 0xaf;
   0x00; 0x08; 0x00; 0x02; 0x00; 0x00].

(** ** Definitions for the further properties *)

(** [Code()] of every option type. *)
Definition Code (o : option) : Z :=
  match o with
  | UnknownOption c _ => c
  | ClientIdOption _ => OptionCodeClientId
  | ServerIdOption _ => OptionCodeServerId
  | IaNaOption _ _ _ _ => OptionCodeIaNa
  | IaTaOption _ _ => OptionCodeIaTa
  | IaAddrOption _ _ _ _ => OptionCodeIaAddr
  | OroOption _ => OptionCodeOro
  | PreferenceOption _ => OptionCodePreference
  | ElapsedTimeOption _ => OptionCodeElapsedTime
  | RelayMsgOption _ => OptionCodeRelayMsg
  | AuthOption _ _ _ _ _ => OptionCodeAuth
  | UnicastOption _ => OptionCodeUnicast
  | StatusCodeOption _ _ => OptionCodeStatusCode
  | RapidCommitOption => OptionCodeRapidCommit
  | UserClassOption _ => OptionCodeUserClass
  | VendorClassOption _ => OptionCodeVendorClass
  | VendorOptsOption _ _ => OptionCodeVendorOpts
  | InterfaceIdOption _ => OptionCodeInterfaceId
  | ReconfMsgOption _ => OptionCodeReconfMsg
  | ReconfAcceptOption => OptionCodeReconfAccept
  | NextHopOption _ _ => OptionCodeNextHop
  | RtPrefixOption _ _ _ _ => OptionCodeRtPrefix
  | FQDNOption _ _ => OptionCodeFQDN
  | MTUOption _ => OptionCodeMTU
  end.

(** The fixed-size arrays of the Go structs: [IAID [4]byte] of IA_NA and
    IA_TA, [ReplayDetection [8]byte] of Auth.  The embedding holds them as
    lists, so their length is a hypothesis. *)
Definition arrays_ok (o : option) : Prop :=
  match o with
  | IaNaOption iaid _ _ _ => length iaid = 4%nat
  | IaTaOption iaid _ => length iaid = 4%nat
  | AuthOption _ _ _ rd _ => length rd = 8%nat
  | _ => True
  end.

(** [Type()] of the DUID types. *)
Definition Type_ (d : Duid.duid) : Z :=
  match d with
  | Duid.LltDuid _ _ _ => Duid.DuidTypeLlt
  | Duid.EnDuid _ _ => Duid.DuidTypeEn
  | Duid.LlDuid _ _ => Duid.DuidTypeLl
  end.

(** The DUID fields fit their Go types ([uint16], [uint32]). *)
Definition duid_fields_ok (d : Duid.duid) : Prop :=
  match d with
  | Duid.LltDuid hw t _ => 0 <= hw < 65536 /\ 0 <= t < 4294967296
  | Duid.EnDuid en _ => 0 <= en < 4294967296
  | Duid.LlDuid hw _ => 0 <= hw < 65536
  end.

(** The codes [UnmarshalBinaryOption] dispatches on; any other code goes to
    [UnknownOption]. *)
Definition known_codes : list Z :=
  [OptionCodeClientId; OptionCodeServerId; OptionCodeIaNa; OptionCodeIaTa;
   OptionCodeIaAddr; OptionCodeOro; OptionCodePreference; OptionCodeElapsedTime;
   OptionCodeRelayMsg; OptionCodeAuth; OptionCodeUnicast; OptionCodeStatusCode;
   OptionCodeRapidCommit; OptionCodeUserClass; OptionCodeVendorClass;
   OptionCodeVendorOpts; OptionCodeInterfaceId; OptionCodeReconfMsg;
   OptionCodeReconfAccept; OptionCodeFQDN; OptionCodeNextHop; OptionCodeRtPrefix;
   OptionCodeMTU].

(** One entry of a User Class or Vendor Class option as the encoder writes it. *)
Definition class_enc (e : list Z) : list Z := put_u16 (u16 (zlen e)) ++ e.

(** One sub-option of a Vendor-specific Information option as the encoder
    writes it, and the ranges under which it is read back. *)
Definition vendor_enc (v : Z * list Z) : list Z :=
  put_u16 (fst v) ++ put_u16 (u16 (zlen (snd v))) ++ snd v.

Definition vendor_ok (v : Z * list Z) : Prop :=
  0 <= fst v < 65536 /\ zlen (snd v) + 4 <= 65535.

(** The same slice seen through a backing array with [pre] in front of it. *)
Definition shift (pre : list Z) (s : slice) : slice :=
  mk (pre ++ backing s) (length pre + off s) (len s).

Definition rmap {A B} (f : A -> B) (r : result A) : result B :=
  match r with Ok a => Ok (f a) | Err e => Err e end.

(** The options whose decoder reads only its own [olen+4] octets, with the
    field ranges their round trip needs. *)
Definition flat_ok (o : option) : Prop :=
  match o with
  | UnknownOption c _ => 0 <= c < 65536 /\ ~ In c known_codes
  | ClientIdOption d | ServerIdOption d => duid_fields_ok d
  | OroOption codes => Forall (fun c => 0 <= c < 65536) codes
  | PreferenceOption _ | RapidCommitOption | ReconfMsgOption _
  | ReconfAcceptOption | UnicastOption _ => True
  | ElapsedTimeOption t | MTUOption t => 0 <= t < 65536
  | InterfaceIdOption _ | StatusCodeOption _ _ => True
  | AuthOption _ _ _ rd _ => length rd = 8%nat
  | _ => False
  end.

(** ** Spec-side predicates *)

(** The per-variant DUID body ceilings of the spec: LLT 122, EN 124, LL 126. *)
Definition duid_body_too_long (d : duid) : Prop :=
  match d with
  | LltDuid _ _ ll => (122 < length ll)%nat
  | EnDuid _ ident => (124 < length ident)%nat
  | LlDuid _ ll => (126 < length ll)%nat
  end.

(** ** Proof automation

    Symbolic evaluation of the embedding: the Go helpers are unfolded, the
    terms are reduced with [cbn] while the [nat] comparisons are kept, and
    each comparison is decided by [lia] from the hypotheses. *)

Lemma u16_small (x : Z) : 0 <= x < 65536 -> u16 x = x.
Proof. intros. unfold u16. apply Z.mod_small. lia. Qed.

Lemma u16_range (x : Z) : 0 <= u16 x < 65536.
Proof. unfold u16. apply Z.mod_pos_bound. lia. Qed.

(** Reading back a big-endian u16 written by [put_u16]. *)
Lemma be_put_u16 (x : Z) : 0 <= x < 65536 -> ((x / 256) mod 256) * 256 + x mod 256 = x.
Proof. intros. Z.div_mod_to_equations. lia. Qed.

Lemma be_put_u16_u16 (x : Z) : ((u16 x / 256) mod 256) * 256 + u16 x mod 256 = u16 x.
Proof. apply be_put_u16, u16_range. Qed.

Lemma length_put_u16 (x : Z) : length (put_u16 x) = 2%nat.
Proof. reflexivity. Qed.

Lemma length_put_u32 (x : Z) : length (put_u32 x) = 4%nat.
Proof. reflexivity. Qed.

Ltac side_cheap := unfold zlen, u16n in *; cbn [length app] in *;
  rewrite ?length_app, ?length_put_u16, ?length_put_u32 in *; cbn [length] in *; lia.

Ltac side := unfold zlen, u16n, u16 in *; cbn [length app] in *;
  rewrite ?length_app, ?length_put_u16, ?length_put_u32 in *; cbn [length] in *;
  Z.div_mod_to_equations; lia.

(** Removes [u16] wrap-arounds that cannot happen, and big-endian
    read-backs of values written by [put_u16]. *)
Ltac norm_arith :=
  first [ rewrite be_put_u16_u16
        | match goal with
          | |- context [((?x / 256) mod 256) * 256 + ?x mod 256] =>
              rewrite (be_put_u16 x) by side_cheap
          end
        | match goal with |- context [u16 ?x] => rewrite (u16_small x) by side_cheap end ].

(** A comparison that evaluates to a boolean constant is replaced by it. *)
Ltac eval_bool t :=
  let v := eval vm_compute in t in
  match v with
  | true => change t with true
  | false => change t with false
  end.

Ltac decide_cmp :=
  match goal with
  | |- context [(?a <? ?b)%nat] =>
      first [ eval_bool (a <? b)%nat
            | rewrite (proj2 (Nat.ltb_lt a b)) by side_cheap
            | rewrite (proj2 (Nat.ltb_ge a b)) by side_cheap
            | rewrite (proj2 (Nat.ltb_lt a b)) by side
            | rewrite (proj2 (Nat.ltb_ge a b)) by side ]
  | |- context [(?a <=? ?b)%nat] =>
      first [ eval_bool (a <=? b)%nat
            | rewrite (proj2 (Nat.leb_le a b)) by side_cheap
            | rewrite (proj2 (Nat.leb_gt a b)) by side_cheap
            | rewrite (proj2 (Nat.leb_le a b)) by side
            | rewrite (proj2 (Nat.leb_gt a b)) by side ]
  | |- context [(?a =? ?b)%nat] =>
      first [ eval_bool (a =? b)%nat
            | rewrite (proj2 (Nat.eqb_eq a b)) by side_cheap
            | rewrite (proj2 (Nat.eqb_neq a b)) by side_cheap
            | rewrite (proj2 (Nat.eqb_eq a b)) by side
            | rewrite (proj2 (Nat.eqb_neq a b)) by side ]
  | |- context [(?a <? ?b)%Z] =>
      first [ eval_bool (a <? b)%Z
            | rewrite (proj2 (Z.ltb_lt a b)) by side_cheap
            | rewrite (proj2 (Z.ltb_ge a b)) by side_cheap
            | rewrite (proj2 (Z.ltb_lt a b)) by side
            | rewrite (proj2 (Z.ltb_ge a b)) by side ]
  | |- context [(?a =? ?b)%Z] =>
      first [ eval_bool (a =? b)%Z
            | rewrite (proj2 (Z.eqb_eq a b)) by side_cheap
            | rewrite (proj2 (Z.eqb_neq a b)) by side_cheap
            | rewrite (proj2 (Z.eqb_eq a b)) by side
            | rewrite (proj2 (Z.eqb_neq a b)) by side ]
  end.

Ltac case_ltb :=
  match goal with |- context [Z.ltb ?a ?b] => destruct (Z.ltb_spec a b) end.

Ltac unfold_go :=
  unfold u16_at, u32_at, bytes_sub, upto, from, be_u16, be_u32, sub, at_, cap,
    guard, of_list, read_header, read_fixed,
    OptionCodeClientId, OptionCodeServerId, OptionCodeIaNa, OptionCodeIaTa,
    OptionCodeIaAddr, OptionCodeOro, OptionCodePreference, OptionCodeElapsedTime,
    OptionCodeRelayMsg, OptionCodeAuth, OptionCodeUnicast, OptionCodeStatusCode,
    OptionCodeRapidCommit, OptionCodeUserClass, OptionCodeVendorClass,
    OptionCodeVendorOpts, OptionCodeInterfaceId, OptionCodeReconfMsg,
    OptionCodeReconfAccept, OptionCodeFQDN, OptionCodeNextHop,
    OptionCodeRtPrefix, OptionCodeMTU, DuidTypeLlt, DuidTypeEn, DuidTypeLl in *.

Ltac red_go :=
  cbn -[Nat.ltb Nat.leb Nat.eqb Z.ltb Z.eqb Z.add Z.sub Z.mul Z.div Z.modulo
        Z.of_nat Z.to_nat u16 u16n zlen UnmarshalBinaryOption
        Unmarshal.UnknownOption_ Unmarshal.ClientIdOption_ Unmarshal.ServerIdOption_
        Unmarshal.IaNaOption_ Unmarshal.IaTaOption_ Unmarshal.IaAddrOption_
        Unmarshal.OroOption_ Unmarshal.PreferenceOption_ Unmarshal.ElapsedTimeOption_
        Unmarshal.DhcpRelayMessage_ Unmarshal.RelayMsgOption_ Unmarshal.AuthOption_
        Unmarshal.UnicastOption_ Unmarshal.StatusCodeOption_
        Unmarshal.RapidCommitOption_ Unmarshal.UserClassOption_
        Unmarshal.VendorClassOption_ Unmarshal.VendorOptsOption_
        Unmarshal.InterfaceIdOption_ Unmarshal.ReconfMsgOption_
        Unmarshal.ReconfAcceptOption_ Unmarshal.NextHopOption_
        Unmarshal.RtPrefixOption_ Unmarshal.FQDNOption_ Unmarshal.MTUOption_].

Ltac run :=
  repeat (first [progress unfold_go | progress red_go | norm_arith | decide_cmp]).

(** One step of [UnmarshalBinaryOption], leaving the nested decoder folded. *)
Lemma UnmarshalBinaryOption_step (fuel : nat) (data : slice) :
  UnmarshalBinaryOption (S fuel) data =
  (let dec := UnmarshalBinaryOption fuel in
   let* c := be_u16 data in
   if c =? OptionCodeClientId then Unmarshal.ClientIdOption_ data
   else if c =? OptionCodeServerId then Unmarshal.ServerIdOption_ data
   else if c =? OptionCodeIaNa then Unmarshal.IaNaOption_ dec data
   else if c =? OptionCodeIaTa then Unmarshal.IaTaOption_ dec data
   else if c =? OptionCodeIaAddr then Unmarshal.IaAddrOption_ dec data
   else if c =? OptionCodeOro then Unmarshal.OroOption_ data
   else if c =? OptionCodePreference then Unmarshal.PreferenceOption_ data
   else if c =? OptionCodeElapsedTime then Unmarshal.ElapsedTimeOption_ data
   else if c =? OptionCodeRelayMsg then Unmarshal.RelayMsgOption_ dec data
   else if c =? OptionCodeAuth then Unmarshal.AuthOption_ data
   else if c =? OptionCodeUnicast then Unmarshal.UnicastOption_ data
   else if c =? OptionCodeStatusCode then Unmarshal.StatusCodeOption_ data
   else if c =? OptionCodeRapidCommit then Unmarshal.RapidCommitOption_ data
   else if c =? OptionCodeUserClass then Unmarshal.UserClassOption_ data
   else if c =? OptionCodeVendorClass then Unmarshal.VendorClassOption_ data
   else if c =? OptionCodeVendorOpts then Unmarshal.VendorOptsOption_ data
   else if c =? OptionCodeInterfaceId then Unmarshal.InterfaceIdOption_ data
   else if c =? OptionCodeReconfMsg then Unmarshal.ReconfMsgOption_ data
   else if c =? OptionCodeReconfAccept then Unmarshal.ReconfAcceptOption_ data
   else if c =? OptionCodeFQDN then Unmarshal.FQDNOption_ data
   else if c =? OptionCodeNextHop then Unmarshal.NextHopOption_ dec data
   else if c =? OptionCodeRtPrefix then Unmarshal.RtPrefixOption_ data
   else if c =? OptionCodeMTU then Unmarshal.MTUOption_ data
   else Unmarshal.UnknownOption_ data).
Proof. reflexivity. Qed.

(** [decode_option] unfolded to one step of the dispatch. *)
Ltac open_decode :=
  unfold decode_option, fuel_of; rewrite UnmarshalBinaryOption_step.

(** ** Claims *)

(** C3.  An LLT DUID is written as the tag 1, the hardware type as a
    big-endian u16 at offset 2, the time as a big-endian u32 at offset 4
    and the link-layer address from offset 8; the decoder reads those same
    offsets; and LLT{0x42, 0x36, [07 08 09 05]} encodes to the 12 octets
    00 01 00 42 00 00 00 36 07 08 09 05. *)
Theorem llt_duid_layout (hw t : Z) (ll : list Z) (h0 h1 t0 t1 t2 t3 : Z)
    (rest : list Z) (Hll : (length ll <= 122)%nat) (Hrest : (length rest <= 122)%nat) :
  encode_duid (LltDuid hw t ll) = Ok ([0; 1] ++ put_u16 hw ++ put_u32 t ++ ll)
  /\ decode_duid ([0; 1; h0; h1; t0; t1; t2; t3] ++ rest)
     = Ok (LltDuid (h0 * 256 + h1) (((t0 * 256 + t1) * 256 + t2) * 256 + t3) rest)
  /\ encode_duid (LltDuid 0x42 0x36 [0x07; 0x08; 0x09; 0x05])
     = Ok [0x00; 0x01; 0x00; 0x42; 0x00; 0x00; 0x00; 0x36; 0x07; 0x08; 0x09; 0x05].
Proof.
  split; [|split].
  - unfold encode_duid, Duid.MarshalBinary. run. reflexivity.
  - unfold decode_duid, UnmarshalBinaryDuid, LltDuid_UnmarshalBinary. run.
    rewrite Nat.sub_0_r, firstn_all. reflexivity.
  - reflexivity.
Qed.

Lemma llt_duid_layout_witness :
  (length [0xaa; 0xbb] <= 122)%nat /\ (length [0x01] <= 122)%nat /\
  encode_duid (LltDuid 7 9 [0xaa; 0xbb]) = Ok ([0; 1] ++ put_u16 7 ++ put_u32 9 ++ [0xaa; 0xbb])
  /\ decode_duid ([0; 1; 0; 7; 0; 0; 0; 9] ++ [0x01])
     = Ok (LltDuid (0 * 256 + 7) (((0 * 256 + 0) * 256 + 0) * 256 + 9) [0x01])
  /\ encode_duid (LltDuid 0x42 0x36 [0x07; 0x08; 0x09; 0x05])
     = Ok [0x00; 0x01; 0x00; 0x42; 0x00; 0x00; 0x00; 0x36; 0x07; 0x08; 0x09; 0x05].
Proof.
  split; [simpl; lia|]. split; [simpl; lia|].
  apply (llt_duid_layout 7 9 [0xaa; 0xbb] 0 7 0 0 0 9 [0x01]); simpl; lia.
Defined.

(** C6.  Encoding a DUID fails with [ErrDuidTooLong] exactly when its
    variable part exceeds its ceiling (LLT 122, EN 124, LL 126 octets) and
    succeeds otherwise; decoding any input of more than 130 octets with a
    tag in {1,2,3} fails with [ErrDuidTooLong]. *)
Theorem duid_too_long_errors (d : duid) (tag : Z) (rest : list Z)
    (Htag : 1 <= tag <= 3) (Hrest : (128 < length rest)%nat) :
  (encode_duid d = Err ErrDuidTooLong <-> duid_body_too_long d)
  /\ (~ duid_body_too_long d -> exists b, encode_duid d = Ok b)
  /\ decode_duid ([0; tag] ++ rest) = Err ErrDuidTooLong.
Proof.
  split; [|split].
  - destruct d as [hw t ll | en ident | hw ll]; simpl;
      unfold guard, zlen; case_ltb; split; intros Hx;
      solve [ reflexivity | lia | discriminate ].
  - destruct d as [hw t ll | en ident | hw ll]; simpl;
      unfold guard, zlen; case_ltb; intros Hx;
      solve [ eexists; reflexivity | lia ].
  - assert (tag = 1 \/ tag = 2 \/ tag = 3) as [-> | [-> | ->]] by lia;
      unfold decode_duid, UnmarshalBinaryDuid, LltDuid_UnmarshalBinary,
        EnDuid_UnmarshalBinary, LlDuid_UnmarshalBinary; run; reflexivity.
Qed.

Lemma duid_too_long_errors_witness :
  (1 <= 2 <= 3) /\ (128 < length (repeat 0 129))%nat /\
  ((encode_duid (EnDuid 1 (repeat 0 125)) = Err ErrDuidTooLong
    <-> duid_body_too_long (EnDuid 1 (repeat 0 125)))
   /\ (~ duid_body_too_long (EnDuid 1 (repeat 0 125)) ->
       exists b, encode_duid (EnDuid 1 (repeat 0 125)) = Ok b)
   /\ decode_duid ([0; 2] ++ repeat 0 129) = Err ErrDuidTooLong).
Proof.
  split; [lia|]. split; [rewrite repeat_length; lia|].
  apply duid_too_long_errors; [lia | rewrite repeat_length; lia].
Defined.

(** C1.  The FQDN option does not survive a round trip: the decoder leaves
    [Flags] at zero and returns the flags octet as the first octet of the
    domain name.  Independently, [data[4:olen+4]] is computed in [uint16],
    so an option whose length field is 65532 or more cannot be decoded:
    an Interface-Id of 65532 octets encodes, and decoding it panics. *)
Theorem fqdn_roundtrip_moves_flags (flags : Z) (dn : list Z)
    (Hdn : zlen dn <= 65530) :
  option_roundtrip (FQDNOption flags dn) = Ok (FQDNOption 0 (flags :: dn))
  /\ FQDNOption 0 (flags :: dn) <> FQDNOption flags dn
  /\ option_roundtrip (InterfaceIdOption (repeat 0 65532)) = Err Panic.
Proof.
  split; [|split].
  - unfold option_roundtrip, encode_option, MarshalBinary. run.
    open_decode. run. unfold Unmarshal.FQDNOption_. run.
    match goal with
    | |- context [firstn ?n ?l] => replace n with (length l) by side; rewrite firstn_all
    end.
    reflexivity.
  - intros Heq. injection Heq as _ Hl.
    apply (f_equal (@length Z)) in Hl. simpl in Hl. lia.
  - vm_compute. reflexivity.
Qed.

Lemma fqdn_roundtrip_moves_flags_witness :
  zlen [97] <= 65530 /\
  (option_roundtrip (FQDNOption 5 [97]) = Ok (FQDNOption 0 (5 :: [97]))
   /\ FQDNOption 0 (5 :: [97]) <> FQDNOption 5 [97]
   /\ option_roundtrip (InterfaceIdOption (repeat 0 65532)) = Err Panic).
Proof.
  split; [unfold zlen; simpl; lia|].
  apply fqdn_roundtrip_moves_flags. unfold zlen; simpl; lia.
Defined.

(** C2.  A User-Class option decodes its entries over the rest of the whole
    buffer, so the options after it in a message are read as class entries:
    [UserClass{}] followed by the empty option of code 0 comes back as
    [UserClass{"", ""}] followed by that option, and [UserClass{}] followed
    by [RapidCommit] makes decoding panic. *)
Theorem user_class_reads_following_options :
  message_roundtrip (mkDhcpMessage 1 [0; 0; 0] [UserClassOption []; UnknownOption 0 []])
  = Ok (mkDhcpMessage 1 [0; 0; 0] [UserClassOption [[]; []]; UnknownOption 0 []])
  /\ message_roundtrip (mkDhcpMessage 1 [0; 0; 0] [UserClassOption []; RapidCommitOption])
     = Err Panic.
Proof. split; vm_compute; reflexivity. Qed.

(** C4.  [UnmarshalBinaryOption] reads the code with
    [binary.BigEndian.Uint16(data)] before any length check: on the empty
    input and on every one-octet input it panics instead of returning
    [ErrUnexpectedEOF]. *)
Theorem decode_option_short_panics :
  decode_option [] = Err Panic /\ forall b0 : Z, decode_option [b0] = Err Panic.
Proof. split; [|intros b0]; reflexivity. Qed.

(** C5.  The nested loop of a container does not compare [4 + nextSize]
    with the octets left in its window: an IA_NA whose only inner header
    declares 5 octets of value with none left makes decoding panic. *)
Theorem nested_overrun_panics :
  decode_option [0; 3; 0; 16; 1; 2; 3; 4; 0; 0; 0; 0; 0; 0; 0; 0; 0; 0; 0; 5]
  = Err Panic
  /\ decode_option ([0; 3; 0; 16; 1; 2; 3; 4; 0; 0; 0; 0; 0; 0; 0; 0; 0; 0; 0; 5]
                    ++ [9; 9; 9; 9; 9])
     = Err Panic.
Proof. split; vm_compute; reflexivity. Qed.

(** C7.  For Preference, ElapsedTime, RapidCommit, ReconfAccept, Unicast
    and ReconfMsg, an input holding at least the header and the expected
    number of value octets whose length field differs from the expected
    constant (1, 2, 0, 0, 16, 1) is rejected with [ErrInvalidData]; an
    input that starts with one of these codes and is shorter than the
    header and the expected value octets is rejected with
    [ErrUnexpectedEOF], whatever octets stand where the length field is. *)
Theorem fixed_length_mismatch_invalid (c e l0 l1 : Z) (rest : list Z)
    (Hc : In (c, e) [(7, 1); (8, 2); (14, 0); (20, 0); (12, 16); (19, 1)])
    (Hl : l0 * 256 + l1 <> e) (Hrest : (Z.to_nat e <= length rest)%nat)
    (short : list Z) (Hshort : (length short < 2 + Z.to_nat e)%nat) :
  decode_option ([0; c; l0; l1] ++ rest) = Err ErrInvalidData
  /\ decode_option ([0; c] ++ short) = Err ErrUnexpectedEOF.
Proof.
  simpl in Hc.
  repeat destruct Hc as [Hc | Hc]; try contradiction; injection Hc as <- <-;
  simpl in Hrest, Hshort; split; open_decode; run;
  unfold Unmarshal.PreferenceOption_, Unmarshal.ElapsedTimeOption_,
    Unmarshal.RapidCommitOption_, Unmarshal.ReconfAcceptOption_,
    Unmarshal.UnicastOption_, Unmarshal.ReconfMsgOption_; run; reflexivity.
Qed.

Lemma fixed_length_mismatch_invalid_witness :
  In (7, 1) [(7, 1); (8, 2); (14, 0); (20, 0); (12, 16); (19, 1)]
  /\ 0 * 256 + 2 <> 1 /\ (Z.to_nat 1 <= length [0; 0])%nat
  /\ (length [5]%Z < 2 + Z.to_nat 1)%nat
  /\ (decode_option ([0; 7; 0; 2] ++ [0; 0]) = Err ErrInvalidData
      /\ decode_option ([0; 7] ++ [5]) = Err ErrUnexpectedEOF).
Proof.
  split; [simpl; auto|]. split; [lia|]. split; [simpl; lia|]. split; [simpl; lia|].
  apply (fixed_length_mismatch_invalid 7 1 0 2 [0; 0]); [simpl; auto | lia | simpl; lia | simpl; lia].
Defined.

(** Against C7: a Preference header with length 0 and nothing after it
    gives [ErrUnexpectedEOF], as the minimum size is checked before the
    length field; and the MTU decoder never compares its length with 2. *)
Lemma fixed_length_mismatch_counterexample :
  decode_option [0; 7; 0; 0] = Err ErrUnexpectedEOF
  /\ decode_option [0; 244; 0; 3; 1; 1; 1] = Ok (MTUOption 257).
Proof. split; vm_compute; reflexivity. Qed.

(** C8.  The User-Class encoder compares the total entry size with 65539,
    not 65535: every total in 65536..65539 is encoded, with the length
    field wrapped to [total - 65536]; one entry of 65534 octets gives a
    65540-octet option whose length field is 0. *)
Theorem user_class_wraps_length (entries : list (list Z))
    (Hsize : 65535 < sum_sizes (fun e => 2 + zlen e) entries <= 65539) :
  match encode_option (UserClassOption [repeat 0 65534]) with
  | Ok b => firstn 4 b = [0; 15; 0; 0] /\ zlen b = 65540
  | Err _ => False
  end
  /\ exists b, encode_option (UserClassOption entries) = Ok b
     /\ firstn 4 b = [0; 15; 0; sum_sizes (fun e => 2 + zlen e) entries - 65536].
Proof.
  split; [vm_compute; split; reflexivity|].
  unfold encode_option. cbn -[Z.add Z.ltb sum_sizes zlen u16 put_u16 concat map].
  set (s := sum_sizes (fun e => 2 + zlen e) entries) in *.
  rewrite (proj2 (Z.ltb_ge 65539 s)) by lia. cbn [guard bind].
  eexists; split; [reflexivity|].
  assert (Hu : u16 s = s - 65536) by (unfold u16; Z.div_mod_to_equations; lia).
  unfold put_u16, OptionCodeUserClass. rewrite Hu. cbn [firstn app].
  assert (H1 : ((s - 65536) / 256) mod 256 = 0) by (Z.div_mod_to_equations; lia).
  assert (H2 : (s - 65536) mod 256 = s - 65536) by (Z.div_mod_to_equations; lia).
  rewrite H1, H2. reflexivity.
Qed.

Lemma user_class_wraps_length_witness :
  65535 < sum_sizes (fun e => 2 + zlen e) [repeat 0 65535] <= 65539
  /\ (match encode_option (UserClassOption [repeat 0 65534]) with
      | Ok b => firstn 4 b = [0; 15; 0; 0] /\ zlen b = 65540
      | Err _ => False
      end
      /\ exists b, encode_option (UserClassOption [repeat 0 65535]) = Ok b
         /\ firstn 4 b = [0; 15; 0; sum_sizes (fun e => 2 + zlen e) [repeat 0 65535] - 65536]).
Proof.
  split; [vm_compute; split; congruence|].
  apply user_class_wraps_length. vm_compute; split; congruence.
Defined.

(** C9.  The Solicit of the package example encodes to the octets of its
    hex string, and those octets decode back to the same message. *)
Theorem solicit_example_roundtrip :
  encode_message solicit_example = Ok solicit_example_bytes
  /\ decode_message solicit_example_bytes = Ok solicit_example.
Proof. split; vm_compute; reflexivity. Qed.

(** C10.  When the decoder accepts an RtPrefix input of more than 26
    octets, the prefix it returns is the whole buffer from offset 10 on,
    more than 16 octets. *)
Theorem rt_prefix_keeps_tail (l0 l1 : Z) (rest : list Z) (o : option)
    (Hdec : decode_option ([0; 243; l0; l1] ++ rest) = Ok o)
    (Hlong : (22 < length rest)%nat) :
  exists lt pl m, o = RtPrefixOption lt pl m (skipn 6 rest)
    /\ (16 < length (skipn 6 rest))%nat.
Proof.
  revert Hdec. open_decode. run. unfold Unmarshal.RtPrefixOption_. run.
  repeat match goal with |- context [if ?b then _ else _] => destruct b end;
    intros Hx; try discriminate.
  injection Hx as <-. do 3 eexists. split.
  - pose proof (firstn_all (skipn 6 rest)) as Hf.
    rewrite length_skipn in Hf. cbn [skipn] in Hf. rewrite Hf. reflexivity.
  - change (16 < length (skipn 6 rest))%nat. rewrite length_skipn. lia.
Qed.

Lemma rt_prefix_keeps_tail_witness :
  decode_option ([0; 243; 0; 23] ++ repeat 1 23)
    = Ok (RtPrefixOption 16843009 1 1 (repeat 1 17))
  /\ (22 < length (repeat 1 23))%nat
  /\ exists lt pl m, RtPrefixOption 16843009 1 1 (repeat 1 17)
                      = RtPrefixOption lt pl m (skipn 6 (repeat 1 23))
       /\ (16 < length (skipn 6 (repeat 1 23)))%nat.
Proof.
  split; [vm_compute; reflexivity|]. split; [simpl; lia|].
  apply (rt_prefix_keeps_tail 0 23 (repeat 1 23)); [vm_compute; reflexivity | simpl; lia].
Defined.

(** ** Further properties of the code *)

(** *** Helper lemmas *)
(** ** Lemmas and tactics for the further properties *)

Lemma put_u16_mod (x : Z) : put_u16 (x mod 65536) = put_u16 x.
Proof.
  unfold put_u16. f_equal; [|f_equal].
  - rewrite <- (Z.mod_mod (x / 256) 256) by lia.
    f_equal. Z.div_mod_to_equations. nia.
  - Z.div_mod_to_equations. nia.
Qed.

Lemma append_nested_shape (capacity : Z) (data : list Z) (l : list (result (list Z))) (r : list Z) :
  append_nested capacity data l = Ok r ->
  exists s, r = data ++ s /\ (r = data \/ zlen r <= capacity).
Proof.
  revert data. induction l as [|x l IH]; intros data H; cbn in H.
  - injection H as <-. exists []. rewrite app_nil_r. auto.
  - destruct x as [od|e]; [|discriminate].
    cbn in H. unfold guard in H.
    destruct (Z.ltb_spec capacity (zlen data + zlen od)); [discriminate|].
    cbn in H. destruct (IH _ H) as [s [-> Hr]].
    exists (od ++ s). rewrite app_assoc. split; [reflexivity|].
    right. destruct Hr as [Hr | Hr]; [|exact Hr].
    rewrite Hr. unfold zlen in *. rewrite length_app. lia.
Qed.

Lemma sum_sizes_concat {A} (f : A -> Z) (g : A -> list Z) (l : list A) :
  (forall x, f x = zlen (g x)) -> sum_sizes f l = zlen (concat (map g l)).
Proof.
  intros Hfg. unfold sum_sizes.
  enough (forall a, fold_left (fun acc x => acc + f x) l a = a + zlen (concat (map g l)))
    by (rewrite H; lia).
  induction l as [|x l IH]; intros a; cbn.
  - unfold zlen. cbn. lia.
  - rewrite IH, Hfg. unfold zlen. rewrite length_app. lia.
Qed.

Lemma put_u16_eq_mod (x y : Z) : x mod 65536 = y mod 65536 -> put_u16 x = put_u16 y.
Proof. intros H. rewrite <- put_u16_mod, H. apply put_u16_mod. Qed.

Lemma set_len_header (d : list Z) : (4 <= length d)%nat ->
  length (set_len d) = length d /\
  firstn 4 (set_len d) = firstn 2 d ++ put_u16 (zlen (set_len d) - 4).
Proof.
  intros Hd. destruct d as [|a [|b [|c [|e r]]]]; cbn in Hd; try lia.
  unfold set_len. cbn [firstn skipn app].
  split; [unfold put_u16; reflexivity|].
  transitivity (a :: b :: put_u16 (u16 (zlen (a :: b :: c :: e :: r) - 4)));
    [unfold put_u16; reflexivity|].
  cbn [app]. do 2 f_equal. apply put_u16_eq_mod.
  unfold u16, zlen; rewrite Z.mod_mod by lia; f_equal;
    cbn [length app]; rewrite ?length_app, ?length_put_u16; lia.
Qed.

Lemma ok_inj {A} (x y : A) : Ok x = Ok y -> x = y.
Proof. intros H. injection H. auto. Qed.

Ltac inv_ok H :=
  repeat (unfold bind, guard in H;
    match type of H with
    | context [if ?c then _ else _] =>
        let E := fresh "E" in destruct c eqn:E; try discriminate H
    | context [match ?x with Ok _ => _ | Err _ => _ end] =>
        let E := fresh "E" in destruct x eqn:E; try discriminate H
    end);
  try (apply ok_inj in H; subst).

Lemma header_firstn (c x : Z) (body : list Z) :
  firstn 4 (put_u16 c ++ put_u16 x ++ body) = put_u16 c ++ put_u16 x.
Proof. reflexivity. Qed.

Lemma header_firstn' (c x : Z) :
  firstn 4 (put_u16 c ++ put_u16 x) = put_u16 c ++ put_u16 x.
Proof. reflexivity. Qed.

Ltac bool_facts :=
  repeat match goal with
  | E : negb _ = false |- _ => apply Bool.negb_false_iff in E
  | E : negb _ = true |- _ => apply Bool.negb_true_iff in E
  | E : (_ =? _)%nat = true |- _ => apply Nat.eqb_eq in E
  | E : (_ =? _)%nat = false |- _ => apply Nat.eqb_neq in E
  | E : (_ <? _)%nat = true |- _ => apply Nat.ltb_lt in E
  | E : (_ <? _)%nat = false |- _ => apply Nat.ltb_ge in E
  | E : (_ =? _)%Z = true |- _ => apply Z.eqb_eq in E
  | E : (_ =? _)%Z = false |- _ => apply Z.eqb_neq in E
  | E : (_ <? _)%Z = true |- _ => apply Z.ltb_lt in E
  | E : (_ <? _)%Z = false |- _ => apply Z.ltb_ge in E
  end.

Lemma length_concat_put_u16 (l : list Z) :
  length (concat (map put_u16 l)) = (2 * length l)%nat.
Proof. induction l; cbn; [reflexivity|]. rewrite IHl. lia. Qed.

Ltac lengths :=
  unfold zlen in *; cbn [length] in *;
  rewrite ?length_app, ?length_put_u16, ?length_put_u32, ?length_concat_put_u16 in *;
  cbn [length] in *.

Ltac hdr_simple :=
  split;
  [ lengths; lia
  | first [rewrite header_firstn | rewrite header_firstn']; f_equal; apply put_u16_eq_mod; unfold u16;
    rewrite ?Z.mod_mod by lia; f_equal ].

Lemma encode_header_aux (o : option) (b : list Z) :
  arrays_ok o -> MarshalBinary o = Ok b ->
  (4 <= length b)%nat /\ firstn 4 b = put_u16 (Code o) ++ put_u16 (zlen b - 4).
Proof.
  intros Ho H. destruct o; cbn [MarshalBinary Code arrays_ok] in *; inv_ok H; bool_facts.
  all: try (hdr_simple;
    try match goal with
        | |- context [concat (map ?g ?l)] =>
            rewrite (sum_sizes_concat _ g l) by (intros; lengths; lia)
        end;
    lengths; lia).
  all: try (match goal with
        | E : append_nested _ ?d _ = Ok _ |- _ =>
            destruct (append_nested_shape _ _ _ _ E) as [s [-> _]];
            destruct (set_len_header (d ++ s)) as [Hl Hf]; [lengths; lia|];
            rewrite Hf; split; [rewrite Hl; lengths; lia | reflexivity]
        end).
Qed.

Lemma duid_encode_length (d : Duid.duid) (a : list Z) :
  Duid.MarshalBinary d = Ok a -> (length a <= 130)%nat.
Proof.
  intros H. destruct d; cbn [Duid.MarshalBinary] in H; inv_ok H; bool_facts; lengths; lia.
Qed.

Lemma be_put_u32 (x : Z) : 0 <= x < 4294967296 ->
  (((x / 16777216) mod 256 * 256 + (x / 65536) mod 256) * 256 + (x / 256) mod 256) * 256
  + x mod 256 = x.
Proof. intros. Z.div_mod_to_equations. lia. Qed.

Ltac eval_bool_cbn t :=
  let v := eval cbn in t in
  match v with
  | true => change t with true
  | false => change t with false
  end.

Ltac decide_cmp_x :=
  match goal with
  | |- context [(?a <? ?b)%nat] =>
      first [ eval_bool_cbn (a <? b)%nat
            | rewrite (proj2 (Nat.ltb_lt a b)) by side_cheap
            | rewrite (proj2 (Nat.ltb_ge a b)) by side_cheap
            | rewrite (proj2 (Nat.ltb_lt a b)) by side
            | rewrite (proj2 (Nat.ltb_ge a b)) by side ]
  | |- context [(?a <=? ?b)%nat] =>
      first [ eval_bool_cbn (a <=? b)%nat
            | rewrite (proj2 (Nat.leb_le a b)) by side_cheap
            | rewrite (proj2 (Nat.leb_gt a b)) by side_cheap
            | rewrite (proj2 (Nat.leb_le a b)) by side
            | rewrite (proj2 (Nat.leb_gt a b)) by side ]
  | |- context [(?a =? ?b)%nat] =>
      first [ eval_bool_cbn (a =? b)%nat
            | rewrite (proj2 (Nat.eqb_eq a b)) by side_cheap
            | rewrite (proj2 (Nat.eqb_neq a b)) by side_cheap
            | rewrite (proj2 (Nat.eqb_eq a b)) by side
            | rewrite (proj2 (Nat.eqb_neq a b)) by side ]
  | |- context [(?a <? ?b)%Z] =>
      first [ eval_bool_cbn (a <? b)%Z
            | rewrite (proj2 (Z.ltb_lt a b)) by side_cheap
            | rewrite (proj2 (Z.ltb_ge a b)) by side_cheap
            | rewrite (proj2 (Z.ltb_lt a b)) by side
            | rewrite (proj2 (Z.ltb_ge a b)) by side ]
  | |- context [(?a =? ?b)%Z] =>
      first [ eval_bool_cbn (a =? b)%Z
            | rewrite (proj2 (Z.eqb_eq a b)) by side_cheap
            | rewrite (proj2 (Z.eqb_neq a b)) by side_cheap
            | rewrite (proj2 (Z.eqb_eq a b)) by side
            | rewrite (proj2 (Z.eqb_neq a b)) by side ]
  end.

Ltac run_x :=
  repeat (first [progress unfold_go | progress red_go | norm_arith | decide_cmp_x]).

Lemma firstn_length_app (l r : list Z) : firstn (length l) (l ++ r) = l.
Proof. rewrite firstn_app, firstn_all, Nat.sub_diag. cbn. apply app_nil_r. Qed.

Ltac fix_firstn :=
  repeat match goal with
  | |- context [firstn ?n (?l ++ ?r)] =>
      replace n with (length l) by side; rewrite firstn_length_app
  end.

Ltac explode :=
  repeat match goal with
  | E : length ?l = ?n |- _ =>
      is_var l;
      destruct l as [|? l]; cbn [length] in E; [discriminate E | injection E as E]
  | E : length ?l = O |- _ => is_var l; destruct l; [clear E | discriminate E]
  end.

Lemma be_put_u16_nth (c : Z) (l : list Z) : 0 <= c < 65536 ->
  nth 0 (put_u16 c ++ l) 0 * 256 + nth 1 (put_u16 c ++ l) 0 = c.
Proof. intros. cbn. Z.div_mod_to_equations. lia. Qed.

Lemma read_codes_spec (pre codes rest : list Z) (j L : nat)
    (Hpre : length pre = (4 + j * 2)%nat)
    (Hc : Forall (fun c => 0 <= c < 65536) codes)
    (HL : (length pre + 2 * length codes <= L)%nat)
    (HL2 : (L <= length (pre ++ concat (map put_u16 codes) ++ rest))%nat) :
  read_codes (mk (pre ++ concat (map put_u16 codes) ++ rest) 0 L) (seq j (length codes))
  = Ok codes.
Proof.
  revert pre j Hpre HL HL2. induction Hc as [|c codes Hc0 Hc IH]; intros; [reflexivity|].
  cbn [length seq read_codes concat map] in *.
  assert (Lc : length (put_u16 c) = 2%nat) by reflexivity.
  assert (Lcs := length_concat_put_u16 codes).
  rewrite !length_app in HL2.
  unfold u16_at, from, sub, be_u16, at_, cap; cbn [backing off len].
  rewrite !length_app.
  rewrite (proj2 (Nat.leb_le _ _)) by lia.
  rewrite (proj2 (Nat.leb_le _ _)) by lia. cbn [andb bind backing off len].
  rewrite (proj2 (Nat.ltb_lt _ _)) by lia.
  rewrite (proj2 (Nat.ltb_lt _ _)) by lia. cbn [bind].
  replace (0 + (4 + j * 2) + 0)%nat with (length pre + 0)%nat by lia.
  replace (0 + (4 + j * 2) + 1)%nat with (length pre + 1)%nat by lia.
  rewrite !app_nth2_plus, <- !app_assoc, be_put_u16_nth by exact Hc0.
  rewrite (app_assoc pre (put_u16 c)).
  rewrite (IH (pre ++ put_u16 c) (S j)).
  - reflexivity.
  - rewrite length_app, Lc. lia.
  - rewrite length_app, Lc. lia.
  - rewrite !length_app in *. lia.
Qed.

Lemma skipn_pre (l r : list Z) (n : nat) : skipn (length l + n) (l ++ r) = skipn n r.
Proof. rewrite skipn_app, skipn_all2 by lia. cbn. f_equal. lia. Qed.

Lemma skipn_put_u16 (x : Z) (l : list Z) : skipn 2 (put_u16 x ++ l) = l.
Proof. reflexivity. Qed.

Lemma class_entries_spec (entries : list (list Z)) : forall (pre : list Z) (acc : list (list Z)) (k : nat),
  Forall (fun e => zlen e + 2 <= 65535) entries -> (length entries < k)%nat ->
  decode_class_entries k
    (mk (pre ++ concat (map class_enc entries)) (length pre)
        (length (concat (map class_enc entries)))) acc = Ok (acc ++ entries).
Proof.
  induction entries as [|e es IH]; intros pre acc k Hf Hk; destruct k as [|k]; try (cbn in Hk; lia).
  - cbn. rewrite app_nil_r. reflexivity.
  - inversion Hf as [|? ? He0 Hf']; subst.
    cbn [map concat decode_class_entries len backing off]. change (class_enc e) with (put_u16 (u16 (zlen e)) ++ e).
    assert (He : u16 (zlen e) = zlen e) by (unfold u16; apply Z.mod_small; unfold zlen in *; lia).
    assert (He2 : u16n (zlen e + 2) = (2 + length e)%nat) by (unfold u16n, u16; rewrite Z.mod_small; unfold zlen in *; lia).
    rewrite He.
    set (T := concat (map class_enc es)).
    assert (Hl : length ((put_u16 (zlen e) ++ e) ++ T) = (2 + length e + length T)%nat)
      by (rewrite !length_app; reflexivity).
    rewrite Hl.
    rewrite (proj2 (Nat.eqb_neq _ _)) by lia.
    unfold be_u16, at_; cbn [len off backing].
    rewrite (proj2 (Nat.ltb_lt 1 _)) by lia. rewrite (proj2 (Nat.ltb_lt 0 _)) by lia. cbn [bind].
    rewrite !app_nth2_plus, <- (app_assoc (put_u16 (zlen e)) e T).
    rewrite be_put_u16_nth by (unfold zlen in *; lia).
    rewrite He2. unfold bytes_sub, sub, bytes, from, cap; cbn [len off backing].
    rewrite !length_app, length_put_u16.
    rewrite (proj2 (Nat.leb_le 2 _)) by lia.
    rewrite (proj2 (Nat.leb_le (2 + length e) _)) by lia.
    cbn [andb bind len off backing].
    rewrite skipn_pre.
    replace (2 + length e - 2)%nat with (length e) by lia.
    rewrite skipn_put_u16, firstn_length_app.
    unfold sub, cap; cbn [len off backing].
    rewrite !length_app, length_put_u16.
    rewrite (proj2 (Nat.leb_le (2 + length e) _)) by lia.
    rewrite (proj2 (Nat.leb_le (2 + length e + length T) _)) by lia.
    cbn [andb bind].
    replace (pre ++ put_u16 (zlen e) ++ e ++ T) with ((pre ++ put_u16 (zlen e) ++ e) ++ T)
      by (rewrite <- !app_assoc; reflexivity).
    replace (length pre + (2 + length e))%nat with (length (pre ++ put_u16 (zlen e) ++ e))
      by (rewrite !length_app, length_put_u16; lia).
    replace (2 + length e + length T - (2 + length e))%nat with (length T) by lia.
    unfold T. cbn [length] in Hk. rewrite IH by (auto; lia).
    rewrite <- app_assoc. reflexivity.
Qed.

Lemma length_class_enc (es : list (list Z)) : (length es <= length (concat (map class_enc es)))%nat.
Proof.
  induction es as [|e es IH]; cbn [map concat length]; [lia|].
  rewrite length_app.
  assert (2 <= length (class_enc e))%nat by (unfold class_enc; rewrite length_app, length_put_u16; lia).
  lia.
Qed.

Lemma be_u16_pre (pre l : list Z) (x : Z) (n : nat) :
  0 <= x < 65536 -> (2 <= n)%nat ->
  be_u16 (mk (pre ++ put_u16 x ++ l) (length pre) n) = Ok x.
Proof.
  intros Hx Hn. unfold be_u16, at_; cbn [len off backing].
  rewrite (proj2 (Nat.ltb_lt 1 n)), (proj2 (Nat.ltb_lt 0 n)) by lia. cbn [bind].
  rewrite !app_nth2_plus, be_put_u16_nth by exact Hx. reflexivity.
Qed.

Lemma u16_at_pre (pre h l : list Z) (x : Z) (n : nat) :
  0 <= x < 65536 -> length h = 2%nat -> (4 <= n)%nat ->
  (n <= length (h ++ put_u16 x ++ l))%nat ->
  u16_at (mk (pre ++ h ++ put_u16 x ++ l) (length pre) n) 2 = Ok x.
Proof.
  intros Hx Hh Hn Hn'. unfold u16_at, from, sub, cap; cbn [len off backing].
  rewrite length_app, Nat.add_sub_swap, Nat.sub_diag, Nat.add_0_l by lia.
  rewrite (proj2 (Nat.leb_le 2 n)), (proj2 (Nat.leb_le n _)) by lia. cbn [andb bind].
  rewrite app_assoc, <- Hh at 1.
  replace (length pre + length h)%nat with (length (pre ++ h)) by (rewrite length_app; lia).
  apply be_u16_pre; [exact Hx | lia].
Qed.

Lemma bytes_sub_pre (pre h d l : list Z) (n : nat) :
  (length h + length d <= n)%nat -> (n <= length (h ++ d ++ l))%nat ->
  bytes_sub (mk (pre ++ h ++ d ++ l) (length pre) n) (length h) (length h + length d) = Ok d.
Proof.
  intros Hn Hn'. unfold bytes_sub, sub, bytes, cap; cbn [len off backing].
  rewrite length_app, Nat.add_sub_swap, Nat.sub_diag, Nat.add_0_l by lia.
  rewrite (proj2 (Nat.leb_le _ (length h + length d))), (proj2 (Nat.leb_le _ (length (h ++ d ++ l)))) by lia.
  cbn [andb bind len off backing].
  rewrite app_assoc, skipn_app, skipn_all2 by (rewrite length_app; lia).
  rewrite length_app, Nat.sub_diag; cbn [app skipn].
  replace (length h + length d - length h)%nat with (length d) by lia.
  rewrite firstn_length_app. reflexivity.
Qed.

Lemma from_pre (pre h l : list Z) (n : nat) :
  (length h <= n)%nat -> (n <= length (h ++ l))%nat ->
  from (mk (pre ++ h ++ l) (length pre) n) (length h)
  = Ok (mk ((pre ++ h) ++ l) (length (pre ++ h)) (n - length h)).
Proof.
  intros Hn Hn'. unfold from, sub, cap; cbn [len off backing].
  rewrite length_app, Nat.add_sub_swap, Nat.sub_diag, Nat.add_0_l by lia.
  rewrite (proj2 (Nat.leb_le (length h) n)), (proj2 (Nat.leb_le n _)) by lia. cbn [andb].
  rewrite app_assoc, length_app. reflexivity.
Qed.

Lemma vendor_opts_spec (od : list (Z * list Z)) : forall (pre : list Z) (acc : list (Z * list Z)) (k : nat),
  Forall vendor_ok od -> (length od < k)%nat ->
  decode_vendor_opts k
    (mk (pre ++ concat (map vendor_enc od)) (length pre)
        (length (concat (map vendor_enc od)))) acc = Ok (acc ++ od).
Proof.
  induction od as [|[c d] od IH]; intros pre acc k Hf Hk; destruct k as [|k]; try (cbn in Hk; lia).
  - cbn. rewrite app_nil_r. reflexivity.
  - inversion Hf as [|? ? [Hc Hd] Hf']; subst. cbn [fst snd] in Hc, Hd.
    cbn [map concat decode_vendor_opts len backing off].
    change (vendor_enc (c, d)) with (put_u16 c ++ put_u16 (u16 (zlen d)) ++ d).
    assert (He : u16 (zlen d) = zlen d) by (unfold u16; apply Z.mod_small; unfold zlen in *; lia).
    assert (He4 : u16n (zlen d + 4) = (4 + length d)%nat) by (unfold u16n, u16; rewrite Z.mod_small; unfold zlen in *; lia).
    rewrite He.
    set (T := concat (map vendor_enc od)).
    rewrite <- !app_assoc, !length_app, !length_put_u16.
    rewrite (proj2 (Nat.eqb_neq _ _)) by lia.
    rewrite (proj2 (Nat.ltb_ge _ 4)) by lia.
    unfold guard; cbn [bind].
    rewrite be_u16_pre by lia. cbn [bind].
    rewrite u16_at_pre by (rewrite ?length_app, ?length_put_u16; cbn [length]; unfold zlen in *; lia). cbn [bind].
    rewrite (proj2 (Z.ltb_ge _ _)) by (unfold zlen; lia). cbn [bind].
    rewrite He4, (app_assoc (put_u16 c)).
    replace 4%nat with (length (put_u16 c ++ put_u16 (zlen d))) by reflexivity.
    rewrite bytes_sub_pre by (rewrite ?length_app, ?length_put_u16; lia). cbn [bind].
    replace (length (put_u16 c ++ put_u16 (zlen d)) + length d)%nat
      with (length ((put_u16 c ++ put_u16 (zlen d)) ++ d)) by (rewrite length_app; lia).
    rewrite (app_assoc (put_u16 c ++ put_u16 (zlen d)) d T).
    rewrite from_pre by (rewrite ?length_app, ?length_put_u16; lia).
    replace (2 + (2 + (length d + length T)) - length ((put_u16 c ++ put_u16 (zlen d)) ++ d))%nat
      with (length T) by (rewrite ?length_app, ?length_put_u16; lia).
    cbn [bind].
    unfold T. cbn [length] in Hk. rewrite IH by (auto; lia).
    rewrite <- app_assoc. reflexivity.
Qed.

Lemma length_vendor_enc (od : list (Z * list Z)) : (length od <= length (concat (map vendor_enc od)))%nat.
Proof.
  induction od as [|v od IH]; cbn [map concat length]; [lia|].
  rewrite length_app.
  assert (4 <= length (vendor_enc v))%nat by (unfold vendor_enc; rewrite !length_app, !length_put_u16; lia).
  lia.
Qed.

Lemma bind_rmap {A B C} (f : A -> B) (m : result A) (k : B -> result C) :
  bind (rmap f m) k = bind m (fun x => k (f x)).
Proof. destruct m; reflexivity. Qed.

Lemma bind_ext {A B} (m : result A) (k1 k2 : A -> result B) :
  (forall x, k1 x = k2 x) -> bind m k1 = bind m k2.
Proof. intros H; destruct m; cbn; auto. Qed.

Lemma len_shift pre s : len (shift pre s) = len s.
Proof. reflexivity. Qed.

Lemma at_shift pre s i : at_ (shift pre s) i = at_ s i.
Proof.
  unfold at_, shift; cbn [len off backing].
  rewrite <- Nat.add_assoc, app_nth2_plus. reflexivity.
Qed.

Lemma be_u16_shift pre s : be_u16 (shift pre s) = be_u16 s.
Proof. unfold be_u16; rewrite !at_shift; reflexivity. Qed.

Lemma be_u32_shift pre s : be_u32 (shift pre s) = be_u32 s.
Proof. unfold be_u32; rewrite !at_shift; reflexivity. Qed.

Lemma sub_shift pre s lo hi : sub (shift pre s) lo hi = rmap (shift pre) (sub s lo hi).
Proof.
  unfold sub, cap, shift; cbn [len off backing].
  rewrite length_app.
  replace (length pre + length (backing s) - (length pre + off s))%nat
    with (length (backing s) - off s)%nat by lia.
  destruct (_ && _)%bool; cbn; [|reflexivity].
  unfold shift; cbn. do 2 f_equal. lia.
Qed.

Lemma from_shift pre s i : from (shift pre s) i = rmap (shift pre) (from s i).
Proof. unfold from; rewrite len_shift; apply sub_shift. Qed.

Lemma upto_shift pre s i : upto (shift pre s) i = rmap (shift pre) (upto s i).
Proof. apply sub_shift. Qed.

Lemma bytes_shift pre s : bytes (shift pre s) = bytes s.
Proof.
  unfold bytes, shift; cbn [len off backing].
  rewrite skipn_app, skipn_all2 by lia. cbn [app]. f_equal. f_equal. lia.
Qed.

Lemma u16_at_shift pre s i : u16_at (shift pre s) i = u16_at s i.
Proof. unfold u16_at; rewrite from_shift, bind_rmap. apply bind_ext; intros; apply be_u16_shift. Qed.

Lemma u32_at_shift pre s i : u32_at (shift pre s) i = u32_at s i.
Proof. unfold u32_at; rewrite from_shift, bind_rmap. apply bind_ext; intros; apply be_u32_shift. Qed.

Lemma bytes_sub_shift pre s lo hi : bytes_sub (shift pre s) lo hi = bytes_sub s lo hi.
Proof. unfold bytes_sub; rewrite sub_shift, bind_rmap. apply bind_ext; intros; rewrite bytes_shift; reflexivity. Qed.

Lemma read_header_shift pre m c s : read_header m c (shift pre s) = read_header m c s.
Proof. unfold read_header; rewrite len_shift, be_u16_shift, u16_at_shift; reflexivity. Qed.

Lemma read_fixed_shift pre m c e s : read_fixed m c e (shift pre s) = read_fixed m c e s.
Proof. unfold read_fixed; rewrite len_shift, be_u16_shift, u16_at_shift; reflexivity. Qed.

Ltac shift_simp :=
  rewrite ?len_shift, ?at_shift, ?be_u16_shift, ?be_u32_shift, ?u16_at_shift,
    ?u32_at_shift, ?bytes_sub_shift, ?read_header_shift, ?read_fixed_shift,
    ?bytes_shift, ?sub_shift, ?from_shift, ?upto_shift, ?bind_rmap.

Ltac shift_go :=
  repeat (shift_simp;
          first [ match goal with |- ?a = ?a => reflexivity end
                | match goal with |- bind ?m _ = bind ?m _ => apply bind_ext; intro end ]).

Section Nested.
Variable pre : list Z.
Variable dec : slice -> result option.
Hypothesis Hdec : forall w, dec (shift pre w) = dec w.

Lemma decode_nested_shift k w acc :
  decode_nested dec k (shift pre w) acc = decode_nested dec k w acc.
Proof.
  revert w acc; induction k as [|k IH]; intros; [reflexivity|].
  cbn [decode_nested]; rewrite len_shift.
  destruct (len w =? 0)%nat; [reflexivity|].
  shift_go. rewrite Hdec. shift_go. apply IH.
Qed.

Lemma decode_flat_shift k w acc :
  decode_flat dec k (shift pre w) acc = decode_flat dec k w acc.
Proof.
  revert w acc; induction k as [|k IH]; intros; [reflexivity|].
  cbn [decode_flat]; rewrite len_shift.
  destruct (len w =? 0)%nat; [reflexivity|].
  shift_go. rewrite Hdec. shift_go. apply IH.
Qed.

Lemma DhcpRelayMessage_shift w :
  Unmarshal.DhcpRelayMessage_ dec (shift pre w) = Unmarshal.DhcpRelayMessage_ dec w.
Proof.
  unfold Unmarshal.DhcpRelayMessage_. shift_go. rewrite decode_flat_shift. reflexivity.
Qed.

End Nested.

Lemma decode_class_entries_shift pre k w acc :
  decode_class_entries k (shift pre w) acc = decode_class_entries k w acc.
Proof.
  revert w acc; induction k as [|k IH]; intros; [reflexivity|].
  cbn [decode_class_entries]; rewrite len_shift.
  destruct (len w =? 0)%nat; [reflexivity|].
  shift_go. apply IH.
Qed.

Lemma decode_vendor_opts_shift pre k w acc :
  decode_vendor_opts k (shift pre w) acc = decode_vendor_opts k w acc.
Proof.
  revert w acc; induction k as [|k IH]; intros; [reflexivity|].
  cbn [decode_vendor_opts]; rewrite len_shift.
  destruct (len w =? 0)%nat; [reflexivity|].
  shift_go. apply IH.
Qed.

Lemma read_codes_shift pre w idx : read_codes (shift pre w) idx = read_codes w idx.
Proof.
  induction idx as [|i idx IH]; [reflexivity|].
  cbn [read_codes]. shift_go. rewrite IH. reflexivity.
Qed.

Lemma UnmarshalBinaryDuid_shift pre w :
  Duid.UnmarshalBinaryDuid (shift pre w) = Duid.UnmarshalBinaryDuid w.
Proof.
  unfold Duid.UnmarshalBinaryDuid, Duid.LltDuid_UnmarshalBinary, Duid.EnDuid_UnmarshalBinary,
    Duid.LlDuid_UnmarshalBinary.
  shift_go.
  destruct (x =? Duid.DuidTypeLlt); [shift_go|].
  destruct (x =? Duid.DuidTypeEn); [shift_go|].
  destruct (x =? Duid.DuidTypeLl); shift_go.
Qed.

Lemma UnmarshalBinaryOption_shift pre f w :
  UnmarshalBinaryOption f (shift pre w) = UnmarshalBinaryOption f w.
Proof.
  revert w; induction f as [|f IH]; intros; [reflexivity|].
  rewrite !UnmarshalBinaryOption_step. cbv zeta.
  shift_go.
  repeat match goal with |- context [if ?c then _ else _] => destruct c end.
  all: unfold Unmarshal.UnknownOption_, Unmarshal.ClientIdOption_, Unmarshal.ServerIdOption_,
    Unmarshal.IaNaOption_, Unmarshal.IaTaOption_, Unmarshal.IaAddrOption_,
    Unmarshal.OroOption_, Unmarshal.PreferenceOption_, Unmarshal.ElapsedTimeOption_,
    Unmarshal.RelayMsgOption_, Unmarshal.AuthOption_,
    Unmarshal.UnicastOption_, Unmarshal.StatusCodeOption_,
    Unmarshal.RapidCommitOption_, Unmarshal.UserClassOption_,
    Unmarshal.VendorClassOption_, Unmarshal.VendorOptsOption_,
    Unmarshal.InterfaceIdOption_, Unmarshal.ReconfMsgOption_,
    Unmarshal.ReconfAcceptOption_, Unmarshal.NextHopOption_,
    Unmarshal.RtPrefixOption_, Unmarshal.FQDNOption_, Unmarshal.MTUOption_.
  all: shift_go.
  all: rewrite ?UnmarshalBinaryDuid_shift, ?read_codes_shift, ?decode_class_entries_shift,
    ?decode_vendor_opts_shift, ?(decode_nested_shift pre _ IH), ?(DhcpRelayMessage_shift pre _ IH).
  all: shift_go.
Qed.
(** Round trips of the options whose decoder stays inside its own
    [olen+4] octets, at any nesting budget. *)

Lemma fixed_rt_gen (o : option) (b rest : list Z) (f n : nat) :
  (length b <= n <= length (b ++ rest))%nat ->
  match o with
  | PreferenceOption _ | RapidCommitOption | ReconfMsgOption _ | ReconfAcceptOption
  | UnicastOption _ => True
  | ElapsedTimeOption t | MTUOption t => 0 <= t < 65536
  | _ => False end ->
  MarshalBinary o = Ok b ->
  UnmarshalBinaryOption (S f) (mk (b ++ rest) 0 n) = Ok o.
Proof.
  intros Hn Hk H.
  destruct o; try contradiction; cbn [MarshalBinary] in H; inv_ok H; bool_facts; explode;
    rewrite UnmarshalBinaryOption_step; run_x;
    unfold Unmarshal.PreferenceOption_, Unmarshal.ElapsedTimeOption_,
      Unmarshal.RapidCommitOption_, Unmarshal.ReconfMsgOption_,
      Unmarshal.ReconfAcceptOption_, Unmarshal.UnicastOption_, Unmarshal.MTUOption_; run_x;
    fix_firstn.
  all: reflexivity.
Qed.

Lemma var_rt_gen (o : option) (b rest : list Z) (f n : nat) :
  (length b <= n <= length (b ++ rest))%nat ->
  match o with
  | InterfaceIdOption _ | StatusCodeOption _ _ => True
  | AuthOption _ _ _ rd _ => length rd = 8%nat
  | _ => False end ->
  MarshalBinary o = Ok b -> zlen b <= 65535 ->
  UnmarshalBinaryOption (S f) (mk (b ++ rest) 0 n) = Ok o.
Proof.
  intros Hn Hk H Hb.
  destruct o; try contradiction; cbn [MarshalBinary] in H; inv_ok H; bool_facts; explode;
    rewrite UnmarshalBinaryOption_step; run_x;
    unfold Unmarshal.InterfaceIdOption_, Unmarshal.StatusCodeOption_, Unmarshal.AuthOption_;
    run_x; fix_firstn.
  all: reflexivity.
Qed.

Lemma oro_rt_gen (codes b rest : list Z) (f n : nat) :
  (length b <= n <= length (b ++ rest))%nat ->
  Forall (fun c => 0 <= c < 65536) codes ->
  MarshalBinary (OroOption codes) = Ok b ->
  UnmarshalBinaryOption (S f) (mk (b ++ rest) 0 n) = Ok (OroOption codes).
Proof.
  intros Hn Hc H.
  cbn [MarshalBinary] in H; inv_ok H; bool_facts.
  assert (Hu : u16 (2 * zlen codes) = 2 * zlen codes)
    by (unfold u16; apply Z.mod_small; unfold zlen in *; lia).
  rewrite Hu.
  assert (Hcn : Z.to_nat (2 * zlen codes / 2) = length codes)
    by (rewrite Z.mul_comm, Z.div_mul by lia; unfold zlen; lia).
  rewrite UnmarshalBinaryOption_step; run_x.
  unfold Unmarshal.OroOption_, read_header; run_x.
  rewrite (proj2 (Z.ltb_ge _ _)) by (lengths; lia).
  cbn [bind]; rewrite Hcn.
  pose proof (read_codes_spec (put_u16 6 ++ put_u16 (2 * zlen codes)) codes rest 0
                n) as R.
  change (put_u16 6 ++ put_u16 (2 * zlen codes)) with
    [(6 / 256) mod 256; 6 mod 256; (2 * zlen codes / 256) mod 256; (2 * zlen codes) mod 256] in R.
  cbn [app] in R.
  rewrite R; [reflexivity | reflexivity | exact Hc | lengths; lia | lengths; lia].
Qed.

Lemma id_rt_gen (o : option) (b rest : list Z) (f n : nat) :
  (length b <= n <= length (b ++ rest))%nat ->
  match o with ClientIdOption d | ServerIdOption d => duid_fields_ok d | _ => False end ->
  MarshalBinary o = Ok b ->
  UnmarshalBinaryOption (S f) (mk (b ++ rest) 0 n) = Ok o.
Proof.
  intros Hn Hk H.
  destruct o; try contradiction; cbn [MarshalBinary] in H; inv_ok H;
  match goal with
  | E : Duid.MarshalBinary ?d = Ok _ |- _ =>
      destruct d; cbn [Duid.MarshalBinary duid_fields_ok] in *; inv_ok E
  end;
  bool_facts; rewrite UnmarshalBinaryOption_step; run_x;
  unfold Unmarshal.ClientIdOption_, Unmarshal.ServerIdOption_; run_x;
  unfold Duid.UnmarshalBinaryDuid, Duid.LltDuid_UnmarshalBinary,
    Duid.EnDuid_UnmarshalBinary, Duid.LlDuid_UnmarshalBinary; run_x.
  all: rewrite ?be_put_u32 by lia; fix_firstn; reflexivity.
Qed.

Lemma unknown_rt_gen (c : Z) (d b rest : list Z) (f n : nat) :
  (length b <= n <= length (b ++ rest))%nat ->
  0 <= c < 65536 -> ~ In c known_codes ->
  MarshalBinary (UnknownOption c d) = Ok b -> zlen b <= 65535 ->
  UnmarshalBinaryOption (S f) (mk (b ++ rest) 0 n) = Ok (UnknownOption c d).
Proof.
  intros Hn Hc Hk H Hb.
  cbn [MarshalBinary] in H; inv_ok H; bool_facts.
  cbn [In known_codes] in Hk.
  repeat match goal with
         | Hn : ~ (_ \/ _) |- _ => apply Decidable.not_or in Hn; destruct Hn
         end.
  rewrite UnmarshalBinaryOption_step; run_x.
  unfold Unmarshal.UnknownOption_; run_x; fix_firstn; reflexivity.
Qed.

Lemma flat_rt_gen (o : option) (b rest : list Z) (f n : nat) :
  (length b <= n <= length (b ++ rest))%nat ->
  flat_ok o -> MarshalBinary o = Ok b -> zlen b <= 65535 ->
  UnmarshalBinaryOption (S f) (mk (b ++ rest) 0 n) = Ok o.
Proof.
  intros Hn Ho H Hb; destruct o; cbn [flat_ok] in Ho; try contradiction.
  all: first
    [ eapply fixed_rt_gen; [exact Hn | exact I || exact Ho | exact H]
    | eapply var_rt_gen; [exact Hn | exact I || exact Ho | exact H | exact Hb]
    | eapply id_rt_gen; [exact Hn | exact Ho | exact H]
    | eapply oro_rt_gen; [exact Hn | exact Ho | exact H]
    | destruct Ho; eapply unknown_rt_gen; eassumption ].
Qed.

Lemma flat_ok_arrays (o : option) : flat_ok o -> arrays_ok o.
Proof. destruct o; cbn [flat_ok arrays_ok]; tauto. Qed.

(** The option loop of [DhcpMessage.UnmarshalBinary] decodes a sequence of
    encoded flat options back to the options, behind any prefix and before
    any suffix of the buffer. *)
Lemma flat_loop (f : nat) (opts : list option) (bs : list (list Z)) :
  Forall2 (fun o b => flat_ok o /\ MarshalBinary o = Ok b /\ zlen b <= 65535) opts bs ->
  forall (pre rest : list Z) (acc : list option) (k : nat), (length bs < k)%nat ->
  decode_flat (UnmarshalBinaryOption (S f)) k
    (mk (pre ++ concat bs ++ rest) (length pre) (length (concat bs))) acc = Ok (acc ++ opts).
Proof.
  induction 1 as [|o b opts bs [Ho [Hb Hz]] _ IH]; intros pre rest acc k Hk;
    (destruct k as [|k]; [cbn [length] in Hk; lia|]).
  - cbn. rewrite app_nil_r. reflexivity.
  - destruct (encode_header_aux o b (flat_ok_arrays o Ho) Hb) as [H4 Hh].
    assert (Hs : 4 <= zlen b <= 65535) by (split; [unfold zlen; lia | exact Hz]).
    cbn [decode_flat concat len].
    rewrite length_app, <- app_assoc.
    replace (length b + length (concat bs) =? 0)%nat with false
      by (symmetry; apply Nat.eqb_neq; lia).
    unfold guard; rewrite (proj2 (Nat.ltb_ge _ _)) by lia; cbn [bind].
    assert (U : u16_at (mk (pre ++ b ++ concat bs ++ rest) (length pre)
                          (length b + length (concat bs))) 2 = Ok (zlen b - 4)).
    { rewrite <- (firstn_skipn 4 b) at 1. rewrite Hh, <- !app_assoc.
      apply u16_at_pre; rewrite ?length_put_u16, ?length_app, ?length_put_u16,
                                  ?length_skipn; lia. }
    rewrite U; cbn [bind].
    replace (mk (pre ++ b ++ concat bs ++ rest) (length pre) (length b + length (concat bs)))
      with (shift pre (mk (b ++ concat bs ++ rest) 0 (length b + length (concat bs))))
      by (unfold shift; cbn; rewrite Nat.add_0_r; reflexivity).
    rewrite UnmarshalBinaryOption_shift,
      (flat_rt_gen o b (concat bs ++ rest) f (length b + length (concat bs)) ltac:(rewrite !length_app; lia) Ho Hb (proj2 Hs)).
    cbn [bind]; unfold shift; cbn [backing off len]; rewrite Nat.add_0_r.
    replace (u16n (zlen b - 4 + 4)) with (length b)
      by (unfold u16n, u16; rewrite Z.sub_add, Z.mod_small by lia; unfold zlen; lia).
    rewrite from_pre by (rewrite ?length_app; lia); cbn [bind].
    replace (length b + length (concat bs) - length b)%nat with (length (concat bs)) by lia.
    rewrite IH by (cbn [length] in Hk; lia).
    rewrite <- app_assoc; reflexivity.
Qed.

(** The loop of [DhcpMessage.MarshalBinary] concatenates the encodings. *)
Lemma append_all_inv (opts : list option) :
  forall (d r : list Z), append_all d (map MarshalBinary opts) = Ok r ->
  exists bs, Forall2 (fun o b => MarshalBinary o = Ok b) opts bs /\ r = d ++ concat bs.
Proof.
  induction opts as [|o opts IH]; intros d r H; cbn [map append_all] in H.
  - injection H as <-. exists []. split; [constructor | cbn; symmetry; apply app_nil_r].
  - destruct (MarshalBinary o) as [b|e] eqn:Eb; cbn [bind] in H; [|discriminate H].
    destruct (IH _ _ H) as [bs [Hf ->]].
    exists (b :: bs). split; [constructor; assumption|].
    cbn [concat]; rewrite app_assoc; reflexivity.
Qed.

Lemma length_concat_headers (opts : list option) (bs : list (list Z)) :
  Forall2 (fun o b => flat_ok o /\ MarshalBinary o = Ok b /\ zlen b <= 65535) opts bs ->
  (length bs <= length (concat bs))%nat.
Proof.
  induction 1 as [|o b opts bs [Ho [Hb _]] _ IH]; cbn [length concat]; [lia|].
  destruct (encode_header_aux o b (flat_ok_arrays o Ho) Hb) as [H4 _].
  rewrite length_app; lia.
Qed.

Lemma flat_forall2 (opts : list option) (bs : list (list Z)) :
  Forall2 (fun o b => MarshalBinary o = Ok b) opts bs ->
  Forall flat_ok opts ->
  Forall (fun o => forall b, MarshalBinary o = Ok b -> zlen b <= 65535) opts ->
  Forall2 (fun o b => flat_ok o /\ MarshalBinary o = Ok b /\ zlen b <= 65535) opts bs.
Proof.
  induction 1 as [|o b opts bs Hb _ IH]; intros Ho Hs; constructor.
  - inversion Ho; inversion Hs; subst; eauto.
  - inversion Ho; inversion Hs; subst; eauto.
Qed.

(** The loop of the container encoders, when it succeeds, appends the
    encodings of the nested options. *)
Lemma append_nested_inv (capacity : Z) (opts : list option) :
  forall (d r : list Z), append_nested capacity d (map MarshalBinary opts) = Ok r ->
  exists bs, Forall2 (fun o b => MarshalBinary o = Ok b) opts bs /\ r = d ++ concat bs.
Proof.
  induction opts as [|o opts IH]; intros d r H; cbn [map append_nested] in H.
  - injection H as <-. exists []. split; [constructor | cbn; symmetry; apply app_nil_r].
  - destruct (MarshalBinary o) as [b|e] eqn:Eb; cbn [bind] in H; [|discriminate H].
    unfold guard in H; destruct (capacity <? zlen d + zlen b); cbn [bind] in H;
      [discriminate H|].
    destruct (IH _ _ H) as [bs [Hf ->]].
    exists (b :: bs). split; [constructor; assumption|].
    cbn [concat]; rewrite app_assoc; reflexivity.
Qed.

Lemma flat_forall2_concat (opts : list option) (bs : list (list Z)) :
  Forall2 (fun o b => MarshalBinary o = Ok b) opts bs ->
  Forall flat_ok opts -> zlen (concat bs) <= 65535 ->
  Forall2 (fun o b => flat_ok o /\ MarshalBinary o = Ok b /\ zlen b <= 65535) opts bs.
Proof.
  induction 1 as [|o b opts bs Hb _ IH]; intros Ho Hs; constructor;
    inversion Ho; subst; cbn [concat] in Hs; unfold zlen in *; rewrite length_app in Hs.
  - repeat split; auto; lia.
  - apply IH; auto; lia.
Qed.

(** The nested loop of the containers decodes a sequence of encoded flat
    options back to the options, behind any prefix and before any suffix. *)
Lemma nested_loop (f : nat) (opts : list option) (bs : list (list Z)) :
  Forall2 (fun o b => flat_ok o /\ MarshalBinary o = Ok b /\ zlen b <= 65535) opts bs ->
  forall (pre rest : list Z) (acc : list option) (k : nat), (length bs < k)%nat ->
  decode_nested (UnmarshalBinaryOption (S f)) k
    (mk (pre ++ concat bs ++ rest) (length pre) (length (concat bs))) acc = Ok (acc ++ opts).
Proof.
  induction 1 as [|o b opts bs [Ho [Hb Hz]] _ IH]; intros pre rest acc k Hk;
    (destruct k as [|k]; [cbn [length] in Hk; lia|]).
  - cbn. rewrite app_nil_r. reflexivity.
  - destruct (encode_header_aux o b (flat_ok_arrays o Ho) Hb) as [H4 Hh].
    assert (Hs : 4 <= zlen b <= 65535) by (split; [unfold zlen; lia | exact Hz]).
    cbn [decode_nested concat len].
    rewrite length_app, <- app_assoc.
    replace (length b + length (concat bs) =? 0)%nat with false
      by (symmetry; apply Nat.eqb_neq; lia).
    unfold guard; rewrite (proj2 (Nat.ltb_ge _ _)) by lia; cbn [bind].
    assert (U : u16_at (mk (pre ++ b ++ concat bs ++ rest) (length pre)
                          (length b + length (concat bs))) 2 = Ok (zlen b - 4)).
    { rewrite <- (firstn_skipn 4 b) at 1. rewrite Hh, <- !app_assoc.
      apply u16_at_pre; rewrite ?length_put_u16, ?length_app, ?length_put_u16,
                                  ?length_skipn; lia. }
    rewrite U; cbn [bind].
    replace (u16n (zlen b - 4 + 4)) with (length b)
      by (unfold u16n, u16; rewrite Z.sub_add, Z.mod_small by lia; unfold zlen; lia).
    unfold upto, sub, cap; cbn [backing off len].
    rewrite (proj2 (Nat.leb_le 0 (length b))) by lia.
    rewrite (proj2 (Nat.leb_le (length b) _)) by (rewrite !length_app; lia).
    cbn [andb bind]; rewrite Nat.add_0_r, Nat.sub_0_r.
    replace (mk (pre ++ b ++ concat bs ++ rest) (length pre) (length b))
      with (shift pre (mk (b ++ concat bs ++ rest) 0 (length b)))
      by (unfold shift; cbn; rewrite Nat.add_0_r; reflexivity).
    rewrite UnmarshalBinaryOption_shift,
      (flat_rt_gen o b (concat bs ++ rest) f (length b) ltac:(rewrite !length_app; lia)
         Ho Hb (proj2 Hs)).
    cbn [bind].
    rewrite from_pre by (rewrite ?length_app; lia); cbn [bind].
    replace (length b + length (concat bs) - length b)%nat with (length (concat bs)) by lia.
    rewrite IH by (cbn [length] in Hk; lia).
    rewrite <- app_assoc; reflexivity.
Qed.

(** The octets of a cons-built list [l] in front of its suffix [suf]. *)
Ltac prefix_of l suf :=
  lazymatch l with
  | suf => constr:(@nil Z)
  | ?a :: ?t => let p := prefix_of t suf in constr:(a :: p)
  end.

(** The loop of [DhcpMessage.MarshalBinary] fails with the error of the
    first option that fails to encode. *)
Lemma append_all_err (e : error) (opts : list option) :
  forall (d : list Z),
  append_all d (map MarshalBinary opts) = Err e <->
  exists pre o post, opts = pre ++ o :: post /\
    Forall (fun o => exists b, MarshalBinary o = Ok b) pre /\ MarshalBinary o = Err e.
Proof.
  induction opts as [|o opts IH]; intros d; cbn [map append_all].
  - split; [discriminate|].
    intros (pre & o & post & Hp & _); destruct pre; discriminate Hp.
  - destruct (MarshalBinary o) as [b|e'] eqn:Eb; cbn [bind]; split.
    + intros H. destruct (proj1 (IH _) H) as (pre & o' & post & -> & Hf & He).
      exists (o :: pre), o', post. split; [reflexivity|]. split; [|exact He].
      constructor; [exists b; exact Eb | exact Hf].
    + intros (pre & o' & post & Hp & Hf & He). apply (IH (d ++ b)).
      destruct pre as [|o1 pre].
      * injection Hp as <- <-. congruence.
      * injection Hp as <- ->. inversion Hf as [|? ? _ Hf']; subst.
        exists pre, o', post. auto.
    + intros H. injection H as <-. exists [], o, opts. auto.
    + intros (pre & o' & post & Hp & Hf & He).
      destruct pre as [|o1 pre].
      * injection Hp as <- <-. congruence.
      * injection Hp as <- ->. inversion Hf as [|? ? [b Hb] _]; subst. congruence.
Qed.

(** *** Properties *)

(** X1.  Every successful encoding of an option whose fixed arrays have
    their Go length is at least 4 octets long and starts with the option
    code and the value length [len - 4], both as big-endian u16 (the
    length modulo 2^16). *)
Theorem encode_header (o : option) (b : list Z) (Ho : arrays_ok o)
    (H : MarshalBinary o = Ok b) :
  (4 <= length b)%nat /\ firstn 4 b = put_u16 (Code o) ++ put_u16 (zlen b - 4).
Proof. exact (encode_header_aux o b Ho H). Qed.

Lemma encode_header_witness :
  arrays_ok (PreferenceOption 3) /\ MarshalBinary (PreferenceOption 3) = Ok [0; 7; 0; 1; 3] /\
  (4 <= length [0; 7; 0; 1; 3]%Z)%nat /\
  firstn 4 [0; 7; 0; 1; 3] = put_u16 (Code (PreferenceOption 3)) ++ put_u16 (zlen [0; 7; 0; 1; 3] - 4).
Proof.
  split; [exact I|]. split; [reflexivity|].
  apply encode_header; [exact I | reflexivity].
Defined.

(** X2.  Apart from the User Class and FQDN options, whose encoders have
    no such bound, a successful encoding is at most 65539 octets long, so
    its value length fits the u16 length field. *)
Theorem encode_size_bound (o : option) (b : list Z) (Ho : arrays_ok o)
    (Hu : forall e, o <> UserClassOption e) (Hf : forall f d, o <> FQDNOption f d)
    (H : MarshalBinary o = Ok b) :
  zlen b <= 65539.
Proof.
  destruct o; cbn [MarshalBinary Code arrays_ok] in *; inv_ok H; bool_facts.
  all: try (exfalso; solve [eapply Hu; reflexivity | eapply Hf; reflexivity]).
  all: try (match goal with
        | E : Duid.MarshalBinary _ = Ok _ |- _ => apply duid_encode_length in E
        end).
  all: try (try match goal with
        | |- context [concat (map ?g ?l)] =>
            rewrite (sum_sizes_concat _ g l) in * by (intros; lengths; lia)
        end;
    lengths; lia).
  all: try (match goal with
        | E : append_nested _ ?d _ = Ok _ |- _ =>
            destruct (append_nested_shape _ _ _ _ E) as [s [-> Hs]];
            destruct (set_len_header (d ++ s)) as [Hl _]; [lengths; lia|];
            unfold zlen at 1; rewrite Hl; destruct Hs as [Hs | Hs];
            [apply (f_equal (@length Z)) in Hs | ]; unfold container_cap in *;
            lengths; lia
        end).
  all: match goal with
        | E : append_nested _ ?d _ = Ok _ |- _ =>
            destruct (append_nested_shape _ _ _ _ E) as [s [-> Hs]];
            destruct (set_len_header (d ++ s)) as [Hl _]; [lengths; lia|];
            unfold zlen at 1; rewrite Hl; destruct Hs as [Hs | Hs];
            [ apply (f_equal (@length Z)) in Hs; lengths; lia
            | unfold container_cap in Hs;
              repeat match type of Hs with
                | context [match ?l with [] => _ | _ :: _ => _ end] => destruct l
                end;
              unfold zlen in Hs; lia ]
        end.
Qed.

Lemma encode_size_bound_witness :
  MarshalBinary (PreferenceOption 3) = Ok [0; 7; 0; 1; 3] /\ zlen [0; 7; 0; 1; 3] <= 65539.
Proof.
  split; [reflexivity|].
  apply (encode_size_bound (PreferenceOption 3)); [exact I | intros ? He; discriminate He
    | intros ? ? He; discriminate He | reflexivity].
Defined.

(** X3.  A DUID whose numeric fields fit their Go types encodes to octets
    that start with its type tag, and decoding those octets as a fresh
    buffer gives the DUID back. *)
Theorem duid_roundtrip (d : Duid.duid) (a : list Z) (Hd : duid_fields_ok d)
    (H : Duid.MarshalBinary d = Ok a) :
  firstn 2 a = put_u16 (Type_ d) /\ Duid.UnmarshalBinaryDuid (of_list a) = Ok d.
Proof.
  destruct d; cbn [Duid.MarshalBinary duid_fields_ok Type_] in *; inv_ok H; bool_facts;
    (split; [reflexivity|]).
  all: unfold Duid.UnmarshalBinaryDuid, Duid.LltDuid_UnmarshalBinary,
         Duid.EnDuid_UnmarshalBinary, Duid.LlDuid_UnmarshalBinary; run_x.
  all: rewrite ?be_put_u32 by lia; rewrite Nat.sub_0_r, firstn_all; reflexivity.
Qed.

Lemma duid_roundtrip_witness :
  Duid.MarshalBinary (Duid.LlDuid 1 [5]) = Ok [0; 3; 0; 1; 5] /\
  firstn 2 [0; 3; 0; 1; 5] = put_u16 (Type_ (Duid.LlDuid 1 [5])) /\
  Duid.UnmarshalBinaryDuid (of_list [0; 3; 0; 1; 5]) = Ok (Duid.LlDuid 1 [5]).
Proof.
  split; [reflexivity|].
  apply duid_roundtrip; [cbn; lia | reflexivity].
Defined.

(** X4.  The fixed-size options (Preference, Elapsed Time, Rapid Commit,
    Reconfigure Message, Reconfigure Accept, Unicast, MTU) decode back from
    their encoding, whatever octets follow it in the buffer; the 16-bit
    values must fit a u16. *)
Theorem fixed_rt (o : option) (b rest : list Z)
  (Hk : match o with
        | PreferenceOption _ | RapidCommitOption | ReconfMsgOption _ | ReconfAcceptOption
        | UnicastOption _ => True
        | ElapsedTimeOption t | MTUOption t => 0 <= t < 65536
        | _ => False end)
  (H : MarshalBinary o = Ok b) :
  decode_option (b ++ rest) = Ok o.
Proof.
  unfold decode_option, fuel_of, of_list.
  apply (fixed_rt_gen o b rest); [rewrite length_app; lia | exact Hk | exact H].
Qed.

Lemma fixed_rt_witness :
  MarshalBinary (ElapsedTimeOption 5) = Ok [0; 8; 0; 2; 0; 5] /\
  decode_option ([0; 8; 0; 2; 0; 5] ++ [1; 2]) = Ok (ElapsedTimeOption 5).
Proof.
  split; [reflexivity|].
  apply fixed_rt; [cbn; lia | reflexivity].
Defined.

(** X5.  The Interface-Id, Status Code and Authentication options decode
    back from their encoding, whatever octets follow, when the encoding is
    at most 65535 octets long (Authentication: an 8-octet replay field). *)
Theorem var_rt (o : option) (b rest : list Z)
  (Hk : match o with
        | InterfaceIdOption _ | StatusCodeOption _ _ => True
        | AuthOption _ _ _ rd _ => length rd = 8%nat
        | _ => False end)
  (H : MarshalBinary o = Ok b) (Hb : zlen b <= 65535) :
  decode_option (b ++ rest) = Ok o.
Proof.
  unfold decode_option, fuel_of, of_list.
  apply (var_rt_gen o b rest); [rewrite length_app; lia | exact Hk | exact H | exact Hb].
Qed.

Lemma var_rt_witness :
  MarshalBinary (InterfaceIdOption [1]) = Ok [0; 18; 0; 1; 1] /\
  decode_option ([0; 18; 0; 1; 1] ++ [7]) = Ok (InterfaceIdOption [1]).
Proof.
  split; [reflexivity|].
  apply var_rt; [exact I | reflexivity | unfold zlen; cbn; lia].
Defined.

(** X6.  An Option Request option whose codes fit a u16 decodes back from
    its encoding, whatever octets follow. *)
Theorem oro_rt (codes b rest : list Z) (Hc : Forall (fun c => 0 <= c < 65536) codes)
  (H : MarshalBinary (OroOption codes) = Ok b) :
  decode_option (b ++ rest) = Ok (OroOption codes).
Proof.
  unfold decode_option, fuel_of, of_list.
  apply (oro_rt_gen codes b rest); [rewrite length_app; lia | exact Hc | exact H].
Qed.

Lemma oro_rt_witness :
  MarshalBinary (OroOption [1; 23]) = Ok [0; 6; 0; 4; 0; 1; 0; 23] /\
  decode_option [0; 6; 0; 4; 0; 1; 0; 23] = Ok (OroOption [1; 23]).
Proof.
  split; [reflexivity|].
  rewrite <- (app_nil_r [0; 6; 0; 4; 0; 1; 0; 23]).
  apply oro_rt; [repeat constructor; lia | reflexivity].
Defined.

(** X7.  A Client or Server Identifier option holding a DUID whose numeric
    fields fit their Go types decodes back from its encoding, whatever
    octets follow. *)
Theorem id_rt (o : option) (b rest : list Z)
  (Hk : match o with ClientIdOption d | ServerIdOption d => duid_fields_ok d | _ => False end)
  (H : MarshalBinary o = Ok b) :
  decode_option (b ++ rest) = Ok o.
Proof.
  unfold decode_option, fuel_of, of_list.
  apply (id_rt_gen o b rest); [rewrite length_app; lia | exact Hk | exact H].
Qed.

Lemma id_rt_witness :
  MarshalBinary (ClientIdOption (Duid.LlDuid 1 [5])) = Ok [0; 1; 0; 5; 0; 3; 0; 1; 5] /\
  decode_option ([0; 1; 0; 5; 0; 3; 0; 1; 5] ++ [0]) = Ok (ClientIdOption (Duid.LlDuid 1 [5])).
Proof.
  split; [reflexivity|].
  apply id_rt; [cbn; lia | reflexivity].
Defined.

(** X8.  An option with a code the decoder does not know decodes back, as
    an Unknown option, from its encoding, whatever octets follow, when the
    encoding is at most 65535 octets long. *)
Theorem unknown_rt (c : Z) (d b rest : list Z) (Hc : 0 <= c < 65536) (Hk : ~ In c known_codes)
  (H : MarshalBinary (UnknownOption c d) = Ok b) (Hb : zlen b <= 65535) :
  decode_option (b ++ rest) = Ok (UnknownOption c d).
Proof.
  unfold decode_option, fuel_of, of_list.
  apply (unknown_rt_gen c d b rest); [rewrite length_app; lia | exact Hc | exact Hk | exact H | exact Hb].
Qed.

Lemma unknown_rt_witness :
  MarshalBinary (UnknownOption 99 [1]) = Ok [0; 99; 0; 1; 1] /\
  decode_option ([0; 99; 0; 1; 1] ++ [4]) = Ok (UnknownOption 99 [1]).
Proof.
  split; [reflexivity|].
  apply unknown_rt; [lia | cbv; intuition discriminate | reflexivity | unfold zlen; cbn; lia].
Defined.
(** X9.  An Unknown option whose data is 65532 to 65535 octets long is
    encoded, but its length field plus 4 wraps around in the decoder's
    u16 arithmetic, so decoding the encoding panics, whatever follows. *)
Theorem unknown_wrap_panics (c : Z) (d rest : list Z) (Hc : 0 <= c < 65536)
  (Hk : ~ In c known_codes) (Hd : 65532 <= zlen d <= 65535) :
  exists b, MarshalBinary (UnknownOption c d) = Ok b /\ decode_option (b ++ rest) = Err Panic.
Proof.
  exists (put_u16 c ++ put_u16 (zlen d) ++ d). split.
  - cbn [MarshalBinary]; unfold guard; rewrite (proj2 (Z.ltb_ge _ _)) by lia; reflexivity.
  - cbn [In known_codes] in Hk.
    repeat match goal with
           | Hn : ~ (_ \/ _) |- _ => apply Decidable.not_or in Hn; destruct Hn
           end.
    open_decode; run_x. unfold Unmarshal.UnknownOption_; run_x.
    reflexivity.
Qed.

Lemma unknown_wrap_panics_witness :
  exists b, MarshalBinary (UnknownOption 99 (repeat 0 (Z.to_nat 65532))) = Ok b /\
            decode_option (b ++ []) = Err Panic.
Proof.
  apply unknown_wrap_panics; [lia | cbv; intuition discriminate |].
  unfold zlen; rewrite repeat_length, Z2Nat.id by lia; lia.
Defined.

(** X10.  A User Class or Vendor Class option whose entries are each at
    most 65533 octets long (entry length + 2 fits a u16) decodes back from
    its encoding as a buffer of its own
    (the entry loop runs to the end of the buffer), also when the User
    Class length field has wrapped around. *)
Theorem class_rt (o : option) (b : list Z)
  (Hk : match o with
        | UserClassOption es | VendorClassOption es => Forall (fun e => zlen e + 2 <= 65535) es
        | _ => False end)
  (H : MarshalBinary o = Ok b) : decode_option b = Ok o.
Proof.
  destruct o; try contradiction; cbn [MarshalBinary] in H; inv_ok H; bool_facts;
  rewrite (sum_sizes_concat _ class_enc) in * by (intros; cbv beta; unfold class_enc; lengths; lia);
  change (fun e => put_u16 (u16 (zlen e)) ++ e) with class_enc;
  open_decode; run_x;
  unfold Unmarshal.UserClassOption_, Unmarshal.VendorClassOption_;
  with_strategy opaque [decode_class_entries] run_x.
  all: rewrite Nat.sub_0_r;
    match goal with |- context [decode_class_entries ?k {| backing := ?w :: ?x :: ?y :: ?z :: concat (map class_enc ?es); off := _; len := _ |} []] =>
      pose proof (class_entries_spec es [w; x; y; z] [] k Hk) as R; cbn [app length] in R end;
    rewrite R by (pose proof length_class_enc; eauto with arith); reflexivity.
Qed.

Lemma class_rt_witness :
  MarshalBinary (UserClassOption [[1]]) = Ok [0; 15; 0; 3; 0; 1; 1] /\
  decode_option [0; 15; 0; 3; 0; 1; 1] = Ok (UserClassOption [[1]]).
Proof.
  split; [reflexivity|].
  apply class_rt; [repeat constructor; unfold zlen; cbn; lia | reflexivity].
Defined.

(** X11.  A Vendor-specific Information option whose enterprise number
    fits a u32 and whose sub-options have u16 codes and fit the u16 length
    decodes back from its encoding as a buffer of its own. *)
Theorem vendor_opts_rt (en : Z) (od : list (Z * list Z)) (b : list Z)
  (Hen : 0 <= en < 4294967296) (Hod : Forall vendor_ok od)
  (H : MarshalBinary (VendorOptsOption en od) = Ok b) :
  decode_option b = Ok (VendorOptsOption en od).
Proof.
  cbn [MarshalBinary] in H; inv_ok H; bool_facts.
  rewrite (sum_sizes_concat _ vendor_enc) in * by (intros; cbv beta; unfold vendor_enc; lengths; lia).
  change (fun v : Z * list Z => put_u16 (fst v) ++ put_u16 (u16 (zlen (snd v))) ++ snd v) with vendor_enc.
  open_decode; run_x.
  unfold Unmarshal.VendorOptsOption_; with_strategy opaque [decode_vendor_opts] run_x.
  rewrite Nat.sub_0_r, be_put_u32 by lia.
  match goal with |- context [decode_vendor_opts ?k {| backing := ?a1 :: ?a2 :: ?a3 :: ?a4 :: ?a5 :: ?a6 :: ?a7 :: ?a8 :: concat (map vendor_enc ?l); off := _; len := _ |} []] =>
    pose proof (vendor_opts_spec l [a1; a2; a3; a4; a5; a6; a7; a8] [] k Hod) as R; cbn [app length] in R end.
  rewrite R by (pose proof (length_vendor_enc od); lia). reflexivity.
Qed.

Lemma vendor_opts_rt_witness :
  MarshalBinary (VendorOptsOption 9 [(1, [2])]) = Ok [0; 17; 0; 9; 0; 0; 0; 9; 0; 1; 0; 1; 2] /\
  decode_option [0; 17; 0; 9; 0; 0; 0; 9; 0; 1; 0; 1; 2] = Ok (VendorOptsOption 9 [(1, [2])]).
Proof.
  split; [reflexivity|].
  apply vendor_opts_rt; [lia | constructor; [unfold vendor_ok, zlen; cbn; lia | constructor]
    | reflexivity].
Defined.

(** X12.  An IA_NA, IA_TA, IA Address or NextHop option whose nested
    options are all of the flat kinds of [flat_ok] decodes back from its
    encoding, whatever follows, when the encoding is at most 65535 octets
    long and its u32 fields fit. *)
Theorem nested_rt (o : option) (b rest : list Z)
  (Hk : match o with
        | IaNaOption _ t1 t2 opts =>
            0 <= t1 < 4294967296 /\ 0 <= t2 < 4294967296 /\ Forall flat_ok opts
        | IaTaOption _ opts | NextHopOption _ opts => Forall flat_ok opts
        | IaAddrOption _ pl vl opts =>
            0 <= pl < 4294967296 /\ 0 <= vl < 4294967296 /\ Forall flat_ok opts
        | _ => False end)
  (Ha : arrays_ok o)
  (H : MarshalBinary o = Ok b) (Hb : zlen b <= 65535) :
  decode_option (b ++ rest) = Ok o.
Proof.
  destruct o; try contradiction; cbn [MarshalBinary arrays_ok] in *;
    unfold guard in H; cbn [bind] in H;
    repeat match type of H with
    | context [if ?c then _ else _] =>
        let E := fresh "E" in destruct c eqn:E; cbn [negb bind] in H; try discriminate H
    end;
    bool_facts;
    match type of H with
    | context [append_nested ?cp ?d ?l] =>
        let Ea := fresh "Ea" in
        destruct (append_nested cp d l) as [r|e] eqn:Ea; cbn [bind] in H; [|discriminate H];
        apply append_nested_inv in Ea; destruct Ea as [bs [Hf ->]]
    end;
    injection H as <-;
    repeat match goal with Hx : _ /\ _ |- _ => destruct Hx end;
    unfold set_len in *; cbn [firstn skipn app put_u16] in *; lengths.
  all: pose proof (flat_forall2_concat _ _ Hf ltac:(assumption) ltac:(unfold zlen; lia)) as F;
    pose proof (length_concat_headers _ _ F) as Hl;
    explode; open_decode; with_strategy opaque [decode_nested] run_x;
    unfold Unmarshal.IaNaOption_, Unmarshal.IaTaOption_, Unmarshal.IaAddrOption_,
      Unmarshal.NextHopOption_;
    with_strategy opaque [decode_nested] run_x;
    rewrite ?be_put_u32 by lia;
    match goal with
    | |- context [decode_nested (UnmarshalBinaryOption (S ?f)) ?k
                    {| backing := ?bk; off := _; len := ?l |} []] =>
        let pre := prefix_of bk (concat bs ++ rest) in
        replace l with (length (concat bs)) by side;
        pose proof (nested_loop f _ bs F pre rest []) as R;
        cbn [app length] in R;
        rewrite R by side
    end;
    reflexivity.
Qed.

Lemma nested_rt_witness :
  MarshalBinary (IaTaOption [1; 2; 3; 4] [RapidCommitOption])
    = Ok [0; 4; 0; 8; 1; 2; 3; 4; 0; 14; 0; 0] /\
  decode_option ([0; 4; 0; 8; 1; 2; 3; 4; 0; 14; 0; 0] ++ [5])
    = Ok (IaTaOption [1; 2; 3; 4] [RapidCommitOption]).
Proof.
  split; [reflexivity|].
  apply nested_rt; [constructor; [exact I | constructor] | reflexivity | reflexivity
    | unfold zlen; cbn; lia].
Defined.

(** X13.  A Relay Message option whose relayed message carries only flat
    options decodes back from its encoding, whatever follows, when the
    encoding is at most 65535 octets long. *)
Theorem relay_rt (mt hc : Z) (link peer : list Z) (opts : list option) (b rest : list Z)
  (Ho : Forall flat_ok opts)
  (Hs : Forall (fun o => forall b, MarshalBinary o = Ok b -> zlen b <= 65535) opts)
  (H : MarshalBinary (RelayMsgOption (DhcpRelayMessage mt hc link peer opts)) = Ok b)
  (Hb : zlen b <= 65535) :
  decode_option (b ++ rest) = Ok (RelayMsgOption (DhcpRelayMessage mt hc link peer opts)).
Proof.
  cbn [MarshalBinary Relay_MarshalBinary] in H.
  unfold guard in H.
  destruct (length link =? 16)%nat eqn:El; cbn [negb bind] in H; [|discriminate H].
  destruct (length peer =? 16)%nat eqn:Ep; cbn [negb bind] in H; [|discriminate H].
  apply Nat.eqb_eq in El, Ep.
  destruct (append_all ([mt; hc] ++ link ++ peer) (map MarshalBinary opts)) as [rd|e] eqn:Ea;
    cbn [bind] in H; [|discriminate H].
  destruct (append_all_inv _ _ _ Ea) as [bs [Hf ->]].
  destruct (65535 <? zlen (([mt; hc] ++ link ++ peer) ++ concat bs)) eqn:Ez;
    cbn [bind] in H; [discriminate H|].
  injection H as <-. apply Z.ltb_ge in Ez. lengths.
  pose proof (flat_forall2 _ _ Hf Ho Hs) as F.
  pose proof (length_concat_headers _ _ F) as Hl.
  explode.
  open_decode; with_strategy opaque [decode_flat] run_x.
  unfold Unmarshal.RelayMsgOption_, Unmarshal.DhcpRelayMessage_;
    with_strategy opaque [decode_flat] run_x.
  match goal with
  | |- context [decode_flat (UnmarshalBinaryOption (S ?f)) ?k
                  {| backing := ?bk; off := _; len := ?l |} []] =>
      let pre := prefix_of bk (concat bs ++ rest) in
      replace l with (length (concat bs)) by side;
      pose proof (flat_loop f opts bs F pre rest []) as R;
      cbn [app length] in R;
      rewrite R by side
  end.
  reflexivity.
Qed.

Lemma relay_rt_witness :
  let o := RelayMsgOption (DhcpRelayMessage 12 0 (repeat 0 16) (repeat 0 16) [RapidCommitOption]) in
  let b := put_u16 9 ++ put_u16 38 ++ [12; 0] ++ repeat 0 16 ++ repeat 0 16 ++ [0; 14; 0; 0] in
  MarshalBinary o = Ok b /\ decode_option (b ++ [1]) = Ok o.
Proof.
  cbv zeta. split; [reflexivity|].
  apply relay_rt; [constructor; [exact I | constructor]
    | constructor; [intros b Hb; injection Hb as <-; unfold zlen; cbn; lia | constructor]
    | reflexivity | unfold zlen; cbn; lia].
Defined.

(** X14.  A message whose transaction id has 3 octets and whose options
    are all flat, each encoded in at most 65535 octets, decodes back from
    its encoding. *)
Theorem message_rt (m : DhcpMessage) (bm : list Z)
  (Hx : length (TransactionId m) = 3%nat)
  (Ho : Forall flat_ok (Options m))
  (Hs : Forall (fun o => forall b, MarshalBinary o = Ok b -> zlen b <= 65535) (Options m))
  (H : encode_message m = Ok bm) :
  decode_message bm = Ok m.
Proof.
  destruct m as [mt xid opts]; cbn [MsgType TransactionId Options] in *.
  unfold encode_message, DhcpMessage_MarshalBinary in H; cbn [MsgType TransactionId Options] in H.
  destruct (append_all_inv _ _ _ H) as [bs [Hf ->]].
  pose proof (flat_forall2 _ _ Hf Ho Hs) as F.
  pose proof (length_concat_headers _ _ F) as Hl.
  explode.
  unfold decode_message, DhcpMessage_UnmarshalBinary, fuel_of, of_list.
  cbn [app length len].
  unfold guard, at_, bytes_sub, from, sub, cap, bytes; cbn [len off backing Nat.ltb Nat.leb andb bind nth firstn skipn Nat.add Nat.sub length].
  rewrite Nat.leb_refl, Nat.sub_0_r; cbn [bind len].
  pose proof (flat_loop (S (S (S (S (length (concat bs)))))) _ _ F [mt; z; z0; z1] [] [] (S (length (concat bs)))) as R.
  rewrite app_nil_r in R.
  cbn [app length] in R; rewrite R by lia.
  reflexivity.
Qed.

Lemma message_rt_witness :
  let m := mkDhcpMessage 1 [0; 0; 7] [RapidCommitOption; ElapsedTimeOption 0] in
  encode_message m = Ok [1; 0; 0; 7; 0; 14; 0; 0; 0; 8; 0; 2; 0; 0] /\
  decode_message [1; 0; 0; 7; 0; 14; 0; 0; 0; 8; 0; 2; 0; 0] = Ok m.
Proof.
  cbv zeta. split; [reflexivity|].
  apply message_rt; [reflexivity | cbn; constructor; [exact I | constructor; [cbn; lia | constructor]]
    | cbn; repeat constructor; intros b Hb; injection Hb as <-; unfold zlen; cbn; lia
    | reflexivity].
Defined.

(** X15.  Decoding a message fails with [ErrUnexpectedEOF] on fewer than 4
    octets; 4 octets decode to a message with that type and transaction id
    and no options. *)
Theorem decode_message_short (b : list Z) (H : (length b < 4)%nat) :
  decode_message b = Err ErrUnexpectedEOF /\
  (forall mt x1 x2 x3, decode_message [mt; x1; x2; x3] = Ok (mkDhcpMessage mt [x1; x2; x3] [])).
Proof.
  split.
  - unfold decode_message, DhcpMessage_UnmarshalBinary, of_list, guard; cbn [len].
    rewrite (proj2 (Nat.ltb_lt _ _) H). reflexivity.
  - intros. reflexivity.
Qed.

Lemma decode_message_short_witness :
  decode_message [1; 2] = Err ErrUnexpectedEOF /\
  decode_message [1; 0; 0; 7] = Ok (mkDhcpMessage 1 [0; 0; 7] []).
Proof.
  destruct (decode_message_short [1; 2] ltac:(cbn; lia)) as [H1 H2].
  split; [exact H1 | apply H2].
Defined.

(** X16.  Decoding a DUID whose first two octets, read as a big-endian
    u16, are none of the types 1, 2, 3 fails with [ErrInvalidType], and a
    DUID buffer of fewer than 2 octets panics. *)
Theorem decode_duid_errors (x y : Z) (rest : list Z) (Ht : ~ In (x * 256 + y) [1; 2; 3]) :
  Duid.decode_duid (x :: y :: rest) = Err ErrInvalidType /\
  Duid.decode_duid [] = Err Panic /\ (forall z, Duid.decode_duid [z] = Err Panic).
Proof.
  split; [|split; [reflexivity | intros; reflexivity]].
  unfold Duid.decode_duid, Duid.UnmarshalBinaryDuid, be_u16, at_, of_list; cbn [len off backing length].
  cbn [Nat.ltb Nat.leb bind nth Nat.add].
  unfold Duid.DuidTypeLlt, Duid.DuidTypeEn, Duid.DuidTypeLl.
  cbn [In] in Ht.
  rewrite (proj2 (Z.eqb_neq _ 1)), (proj2 (Z.eqb_neq _ 2)), (proj2 (Z.eqb_neq _ 3)) by lia.
  reflexivity.
Qed.

Lemma decode_duid_errors_witness :
  Duid.decode_duid [0; 9; 1] = Err ErrInvalidType.
Proof.
  apply (decode_duid_errors 0 9 [1]). cbn; lia.
Defined.

(** X17.  Encoding a message fails with error [e] exactly when one of its
    options fails to encode with [e] and every option before it encodes. *)
Theorem encode_message_error (m : DhcpMessage) (e : error) :
  encode_message m = Err e <->
  exists pre o post, Options m = pre ++ o :: post /\
    Forall (fun o => exists b, MarshalBinary o = Ok b) pre /\ MarshalBinary o = Err e.
Proof.
  unfold encode_message, DhcpMessage_MarshalBinary. apply append_all_err.
Qed.
